(** * Header block plugin: normalisation, view synchronisation, merge

    A shallow embedding of the two variants of the [Header] class of this
    repository:

    - [Index]   embeds [src/index.js] (levels H1..H3, alignment support);
    - [Part000] embeds the second variant (levels H2..H4, no alignment).

    Both classes are written against three host facilities, which are
    embedded first: the JavaScript value operations the methods use
    ([typeof], [||], [===], [parseInt], string conversion, [trim]), the
    small part of the DOM they touch (elements, class lists, datasets), and
    exceptions, as an error monad. *)

From Stdlib Require Import ZArith List String Ascii Bool Lia.
Import ListNotations.
Local Open Scope string_scope.
Local Open Scope Z_scope.

(** ** JavaScript values *)

Module Js.

(** Numbers.  The methods only ever produce numbers through [parseInt] and
    through the registry constants, so the embedding keeps the integers
    and [NaN]; fractions are outside it, and the sign of zero is not kept
    ([-0] and [0] are both falsy and both print as "0").

    [Int z] stands for the double of value [z], and the operations below
    compute with [z] itself.  That is what the engine does on the safe
    integers, of magnitude at most 2^53 ([safe] below): each of them is a
    double, and prints as its decimal digits.  Beyond them a double is
    only the representable number nearest to the digits read, it prints
    with the shortest digits that read back as itself, and from 2^1024 on
    it is [Infinity]: none of this is computed here, so a statement that
    depends on the value of a number carries [safe] (or [exact], for
    values) as a hypothesis.  The powers of ten up to 10^22 are doubles
    too, and print as one digit and an exponent from 10^21 on. *)
Inductive number : Type :=
| NaN
| Int (z : Z).

(** Values.  An object is its table of own properties, with
    [Object.prototype] as its prototype; a property read takes the first
    binding of the name.  Arrays, functions and symbols are outside the
    embedding, so no property holds a method.  Strings are given by the
    bytes of their UTF-8 encoding. *)
#[local] Unset Elimination Schemes.
Inductive value : Type :=
| Undefined
| Null
| Bool (b : bool)
| Num (n : number)
| Str (s : string)
| Obj (props : list (string * value)).
#[local] Set Elimination Schemes.

(** Exceptions raised by the operations below. *)
Inductive error : Type :=
| TypeError (msg : string).

(** Completion of a call: a result, or a thrown exception. *)
Inductive completion (A : Type) : Type :=
| Ok (a : A)
| Throw (e : error).
Arguments Ok {A} a.
Arguments Throw {A} e.

Definition bind {A B} (c : completion A) (k : A -> completion B)
  : completion B :=
  match c with
  | Ok a => k a
  | Throw e => Throw e
  end.

(** [typeof v] *)
Definition typeof (v : value) : string :=
  match v with
  | Undefined => "undefined"
  | Null => "object"
  | Bool _ => "boolean"
  | Num _ => "number"
  | Str _ => "string"
  | Obj _ => "object"
  end.

(** ToBoolean *)
Definition truthy (v : value) : bool :=
  match v with
  | Undefined | Null => false
  | Bool b => b
  | Num NaN => false
  | Num (Int z) => negb (z =? 0)
  | Str s => negb (s =? "")%string
  | Obj _ => true
  end.

(** [a || b] on values that are already evaluated (both operands of every
    [||] of the classes are free of effects once evaluated). *)
Definition or (a b : value) : value := if truthy a then a else b.

(** [a === b].  Two objects are equal when they are the same object;
    the embedding keeps no identities, and no comparison of the classes
    has an object on its left, so a comparison of two objects is given as
    [false]. *)
Definition strict_equal (a b : value) : bool :=
  match a, b with
  | Undefined, Undefined => true
  | Null, Null => true
  | Bool x, Bool y => Bool.eqb x y
  | Num (Int x), Num (Int y) => x =? y
  | Str x, Str y => (x =? y)%string
  | _, _ => false
  end.

(** [v !== undefined] *)
Definition is_defined (v : value) : bool :=
  match v with
  | Undefined => false
  | _ => true
  end.

Fixpoint lookup (name : string) (props : list (string * value))
  : option value :=
  match props with
  | [] => None
  | (k, v) :: rest => if (k =? name)%string then Some v else lookup name rest
  end.

(** An own property of an object, [undefined] when it has none of that
    name. *)
Definition field (name : string) (props : list (string * value)) : value :=
  match lookup name props with
  | Some x => x
  | None => Undefined
  end.

(** [v.name] for the property names the classes read from their inputs
    ([text], [level], [align]): none of them is defined on a built-in
    prototype, so on a primitive the read yields [undefined]; on
    [undefined] and [null] it throws. *)
Definition get (v : value) (name : string) : completion value :=
  match v with
  | Undefined => Throw (TypeError "Cannot read properties of undefined")
  | Null => Throw (TypeError "Cannot read properties of null")
  | Obj props => Ok (field name props)
  | Bool _ | Num _ | Str _ => Ok Undefined
  end.

(** What a raw input carries under a name: its property when it is an
    object, nothing otherwise. *)
Definition raw (v : value) (name : string) : value :=
  match v with
  | Obj props => field name props
  | _ => Undefined
  end.

(** *** Strings and numbers *)

(** The white space characters of three bytes, by their bytes: U+1680,
    U+2000 to U+200A, U+2028, U+2029, U+202F, U+205F, U+3000 and
    U+FEFF. *)
Definition wide_space (b1 b2 b3 : nat) : bool :=
  ((b1 =? 225) && (b2 =? 154) && (b3 =? 128) ||
   (b1 =? 226) && (b2 =? 128) &&
     ((128 <=? b3) && (b3 <=? 138) || (b3 =? 168) || (b3 =? 169) ||
      (b3 =? 175)) ||
   (b1 =? 226) && (b2 =? 129) && (b3 =? 159) ||
   (b1 =? 227) && (b2 =? 128) && (b3 =? 128) ||
   (b1 =? 239) && (b2 =? 187) && (b3 =? 191))%nat.

(** White space of [parseInt] and [trim] (WhiteSpace and LineTerminator
    of the language): TAB, LF, VT, FF, CR and the space, U+00A0 (bytes
    194, 160), and the characters of [wide_space].  [white_space s] is
    what follows one white space character at the head of [s]. *)
Definition white_space (s : string) : option string :=
  match s with
  | EmptyString => None
  | String c rest =>
      let n := nat_of_ascii c in
      if ((9 <=? n) && (n <=? 13) || (n =? 32))%nat then Some rest
      else if (n =? 194)%nat then
        match rest with
        | String c2 rest2 =>
            if (nat_of_ascii c2 =? 160)%nat then Some rest2 else None
        | EmptyString => None
        end
      else if ((n =? 225) || (n =? 226) || (n =? 227) || (n =? 239))%nat then
        match rest with
        | String c2 (String c3 rest3) =>
            if wide_space n (nat_of_ascii c2) (nat_of_ascii c3)
            then Some rest3 else None
        | _ => None
        end
      else None
  end.

(** Drops white space from the head, at most [fuel] characters of it. *)
Fixpoint trimStart_aux (fuel : nat) (s : string) : string :=
  match fuel with
  | O => s
  | S fuel' =>
      match white_space s with
      | Some rest => trimStart_aux fuel' rest
      | None => s
      end
  end.

Definition trimStart (s : string) : string :=
  trimStart_aux (String.length s) s.

(** A string of white space only. *)
Definition blank (s : string) : bool := (trimStart s =? "")%string.

(** Drops the white space at the end: the longest suffix that is white
    space only. *)
Fixpoint trimEnd (s : string) : string :=
  match s with
  | EmptyString => EmptyString
  | String c rest => if blank s then EmptyString else String c (trimEnd rest)
  end.

(** [String.prototype.trim] *)
Definition trim (s : string) : string := trimEnd (trimStart s).

Definition digit_char (d : Z) : ascii :=
  ascii_of_nat (48 + Z.to_nat d).

(** The decimal digits of a non-negative integer, most significant
    first, put in front of [acc]. *)
Fixpoint decimal_aux (fuel : nat) (z : Z) (acc : string) : string :=
  let acc' := String (digit_char (z mod 10)) acc in
  match fuel with
  | O => acc'
  | S fuel' => if z <? 10 then acc' else decimal_aux fuel' (z / 10) acc'
  end.

Definition decimal (z : Z) : string :=
  decimal_aux (Z.to_nat (Z.log2 z)) z "".

Fixpoint strip_zeros_end (s : string) : string :=
  match s with
  | EmptyString => EmptyString
  | String c rest =>
      match strip_zeros_end rest with
      | EmptyString => if (c =? "0")%char then EmptyString
                       else String c EmptyString
      | kept => String c kept
      end
  end.

(** Exponent notation of an integer of 22 digits or more,
    [d.ddd...e+n].  The digits after the point are those of the exact
    integer; an engine prints the shortest digits that read back as the
    same double, which can be fewer. *)
Definition exponential (z : Z) : string :=
  let ds := decimal z in
  let e := decimal (Z.of_nat (String.length ds) - 1) in
  match strip_zeros_end ds with
  | EmptyString => ds
  | String d EmptyString => String d ("e+" ++ e)
  | String d more => String d ("." ++ more ++ "e+" ++ e)
  end.

(** Number::toString, radix 10: plain decimal digits below 10^21,
    exponent notation from there on. *)
Definition number_to_string (n : number) : string :=
  match n with
  | NaN => "NaN"
  | Int z =>
      let m := Z.abs z in
      let body := if m <? 10 ^ 21 then decimal m else exponential m in
      if z <? 0 then "-" ++ body else body
  end.

(** The numbers that print in plain decimal notation, and [NaN]. *)
Definition plain (n : number) : bool :=
  match n with
  | NaN => true
  | Int z => Z.abs z <? 10 ^ 21
  end.

(** The safe integers, and [NaN]: the numbers on which the embedding
    computes what the engine computes. *)
Definition safe (n : number) : bool :=
  match n with
  | NaN => true
  | Int z => Z.abs z <=? 2 ^ 53
  end.

(** The values the engine converts to a string without raising.  For an
    object the conversion looks up [toString] and calls it: an object
    with no own property of that name inherits the method of
    [Object.prototype]; an own property shadows it with a value that is
    no method, and the conversion raises a TypeError. *)
Definition convertible (v : value) : bool :=
  match v with
  | Obj props =>
      match lookup "toString" props with
      | Some _ => false
      | None => true
      end
  | _ => true
  end.

(** The values on which [to_string], and so [parseInt] and [+], give
    what the engine gives. *)
Definition exact (v : value) : bool :=
  convertible v &&
  match v with
  | Num n => safe n
  | _ => true
  end.

(** ToString, on [convertible] values (on the others [to_string] still
    gives the string of an object, where the engine raises). *)
Definition to_string (v : value) : string :=
  match v with
  | Undefined => "undefined"
  | Null => "null"
  | Bool true => "true"
  | Bool false => "false"
  | Num n => number_to_string n
  | Str s => s
  | Obj _ => "[object Object]"
  end.

(** The value of a character as a digit of radix up to 36. *)
Definition digit_value (c : ascii) : option Z :=
  let n := nat_of_ascii c in
  if ((48 <=? n) && (n <=? 57))%nat then Some (Z.of_nat n - 48)
  else if ((97 <=? n) && (n <=? 122))%nat then Some (Z.of_nat n - 87)
  else if ((65 <=? n) && (n <=? 90))%nat then Some (Z.of_nat n - 55)
  else None.

(** Reads the longest prefix of radix digits; [acc] is [None] until a
    digit has been read. *)
Fixpoint parse_digits (radix : Z) (s : string) (acc : option Z)
  : option Z :=
  match s with
  | EmptyString => acc
  | String c rest =>
      match digit_value c with
      | Some d =>
          if d <? radix then
            parse_digits radix rest
              (Some (radix * match acc with Some a => a | None => 0 end + d))
          else acc
      | None => acc
      end
  end.

(** The sign in front of the digits, if any. *)
Definition strip_sign (s : string) : bool * string :=
  match s with
  | String "-"%char rest => (true, rest)
  | String "+"%char rest => (false, rest)
  | _ => (false, s)
  end.

(** The radix when none is given: 16 after [0x] or [0X], else 10. *)
Definition strip_prefix (s : string) : Z * string :=
  match s with
  | String "0"%char (String x rest) =>
      if ((x =? "x") || (x =? "X"))%char then (16, rest) else (10, s)
  | _ => (10, s)
  end.

(** [parseInt(string)] with no radix argument: leading white space is
    skipped, a sign is read, a [0x] or [0X] prefix selects radix 16, and
    the longest prefix of digits is the result; none gives [NaN]. *)
Definition parseInt_string (s : string) : number :=
  let '(negative, s2) := strip_sign (trimStart s) in
  let '(radix, s3) := strip_prefix s2 in
  match parse_digits radix s3 None with
  | None => NaN
  | Some m => Int (if negative then - m else m)
  end.

(** [parseInt(v)]: the argument is converted to a string first. *)
Definition parseInt (v : value) : number := parseInt_string (to_string v).

(** ToNumber, for the operands of [+] that are not strings. *)
Definition to_number (v : value) : number :=
  match v with
  | Undefined => NaN
  | Null => Int 0
  | Bool b => Int (if b then 1 else 0)
  | Num n => n
  | Str _ | Obj _ => NaN
  end.

(** [a + b]: concatenation as soon as one operand is a string (an object
    is first turned into its string), a sum of numbers otherwise. *)
Definition add (a b : value) : value :=
  match a, b with
  | Str _, _ | _, Str _ | Obj _, _ | _, Obj _ =>
      Str (to_string a ++ to_string b)
  | _, _ =>
      match to_number a, to_number b with
      | Int x, Int y => Num (Int (x + y))
      | _, _ => Num NaN
      end
  end.

(** [v.trim()]: the method exists on strings only. *)
Definition call_trim (v : value) : completion string :=
  match v with
  | Str s => Ok (trim s)
  | Undefined => Throw (TypeError "Cannot read properties of undefined")
  | Null => Throw (TypeError "Cannot read properties of null")
  | Bool _ | Num _ | Obj _ => Throw (TypeError "trim is not a function")
  end.

(** The shape of a printed integer: a digit, followed by nothing or by
    another digit. *)
Definition digits_head (s : string) : Prop :=
  exists d tail,
    0 <= d < 10 /\ s = String (digit_char d) tail /\
    (tail = "" \/
     exists d' tail', 0 <= d' < 10 /\ tail = String (digit_char d') tail').

End Js.

Notation "x <- c ;; k" := (Js.bind c (fun x => k))
  (at level 61, c at next level, right associativity).


(** ** The part of the DOM the classes touch *)

Module Dom.

(** The SVG markup of the registries, by name: an icon is only ever
    copied into a settings button. *)
Inductive icon : Type :=
| SvgH1 | SvgH2 | SvgH3 | SvgH4
| SvgAlignLeft | SvgAlignCenter | SvgAlignRight.

(** The heading element.  [innerHTML] is the markup last assigned to
    the element.  The DOM parses what is assigned and serialises again
    on a read: a read gives the markup assigned when that is serialised
    markup already, as is all the markup the class reads from an element
    and then assigns; [serialization] below gives the read for character
    data.  [style_textAlign] is the value last assigned to
    [style.textAlign].  [parentNode] tells whether the element is in a
    host container. *)
Record element : Type := {
  tagName : string;
  innerHTML : string;
  classList : list string;
  style_textAlign : Js.value;
  contentEditable : string;
  dataset_placeholder : option string;
  parentNode : bool
}.

(** [document.createElement(tag)] *)
Definition createElement (tag : string) : element :=
  {| tagName := tag; innerHTML := ""; classList := [];
     style_textAlign := Js.Str ""; contentEditable := "inherit";
     dataset_placeholder := None; parentNode := false |}.

Definition set_innerHTML (html : string) (e : element) : element :=
  {| tagName := tagName e; innerHTML := html; classList := classList e;
     style_textAlign := style_textAlign e;
     contentEditable := contentEditable e;
     dataset_placeholder := dataset_placeholder e;
     parentNode := parentNode e |}.

Definition set_classList (l : list string) (e : element) : element :=
  {| tagName := tagName e; innerHTML := innerHTML e; classList := l;
     style_textAlign := style_textAlign e;
     contentEditable := contentEditable e;
     dataset_placeholder := dataset_placeholder e;
     parentNode := parentNode e |}.

Definition set_textAlign (v : Js.value) (e : element) : element :=
  {| tagName := tagName e; innerHTML := innerHTML e;
     classList := classList e; style_textAlign := v;
     contentEditable := contentEditable e;
     dataset_placeholder := dataset_placeholder e;
     parentNode := parentNode e |}.

Definition set_contentEditable (v : string) (e : element) : element :=
  {| tagName := tagName e; innerHTML := innerHTML e;
     classList := classList e; style_textAlign := style_textAlign e;
     contentEditable := v;
     dataset_placeholder := dataset_placeholder e;
     parentNode := parentNode e |}.

Definition set_placeholder (v : string) (e : element) : element :=
  {| tagName := tagName e; innerHTML := innerHTML e;
     classList := classList e; style_textAlign := style_textAlign e;
     contentEditable := contentEditable e;
     dataset_placeholder := Some v;
     parentNode := parentNode e |}.

Definition set_parentNode (attached : bool) (e : element) : element :=
  {| tagName := tagName e; innerHTML := innerHTML e;
     classList := classList e; style_textAlign := style_textAlign e;
     contentEditable := contentEditable e;
     dataset_placeholder := dataset_placeholder e;
     parentNode := attached |}.

(** [parent.replaceChild(newChild, oldChild)], seen from the new child:
    it takes the place of the old one in the container. *)
Definition replaceChild (newChild oldChild : element) : element :=
  set_parentNode (parentNode oldChild) newChild.

(** The character after [&] that makes the parser read a character
    reference: a letter, a digit or [#]. *)
Definition reference_start (s : string) : bool :=
  match s with
  | EmptyString => false
  | String c _ =>
      let n := nat_of_ascii c in
      ((n =? 35) || (48 <=? n) && (n <=? 57) ||
       (65 <=? n) && (n <=? 90) || (97 <=? n) && (n <=? 122))%nat
  end.

(** The serialisation of a text node: [&], [>] and U+00A0 (bytes 194,
    160) are written as character references.  [None] on what the parser
    does not take as the characters of a text node: [<] (which opens a
    tag), a character reference, NUL and CR. *)
Fixpoint escape (s : string) : option string :=
  match s with
  | EmptyString => Some EmptyString
  | String c rest =>
      let n := nat_of_ascii c in
      if ((n =? 0) || (n =? 13) || (n =? 60))%nat then None
      else if (n =? 38)%nat then
        if reference_start rest then None
        else option_map (String.append "&amp;") (escape rest)
      else if (n =? 62)%nat then
        option_map (String.append "&gt;") (escape rest)
      else if (n =? 194)%nat then
        match rest with
        | String c2 rest2 =>
            if (nat_of_ascii c2 =? 160)%nat
            then option_map (String.append "&nbsp;") (escape rest2)
            else option_map (String c) (escape rest)
        | EmptyString => option_map (String c) (escape rest)
        end
      else option_map (String c) (escape rest)
  end.

(** A byte order mark, U+FEFF, at the head. *)
Definition byte_order_mark (s : string) : bool :=
  match s with
  | String c1 (String c2 (String c3 _)) =>
      ((nat_of_ascii c1 =? 239) && (nat_of_ascii c2 =? 187) &&
       (nat_of_ascii c3 =? 191))%nat
  | _ => false
  end.

(** What [innerHTML] reads after [markup] was assigned to a heading
    element, for markup that is character data: the parser makes one
    text node of it, and the read serialises the node.  [None] on markup
    with tags or character references, which the embedding does not
    parse, and on a leading byte order mark, which parsers treat
    differently. *)
Definition serialization (markup : string) : option string :=
  if byte_order_mark markup then None else escape markup.



(** Class lists are ordered sets of tokens. *)
Definition contains (token : string) (l : list string) : bool :=
  existsb (String.eqb token) l.

(** No tab, line feed, form feed, carriage return or space. *)
Fixpoint no_ascii_whitespace (s : string) : bool :=
  match s with
  | EmptyString => true
  | String c rest =>
      let n := nat_of_ascii c in
      negb ((n =? 9) || (n =? 10) || (n =? 12) || (n =? 13) || (n =? 32))%nat
      && no_ascii_whitespace rest
  end.

(** The tokens a class list takes: [add] and [toggle] raise a
    SyntaxError on the empty string and an InvalidCharacterError on a
    token with white space. *)
Definition valid_token (token : string) : bool :=
  negb (token =? "")%string && no_ascii_whitespace token.

(** [classList.add(token)], for a [valid_token]. *)
Definition classList_add (token : string) (l : list string) : list string :=
  if contains token l then l else l ++ [token].

Definition classList_remove (token : string) (l : list string)
  : list string :=
  filter (fun t => negb (String.eqb token t)) l.

(** [classList.toggle(token, force)], for a [valid_token]. *)
Definition classList_toggle (token : string) (force : bool)
    (l : list string) : list string :=
  if force then classList_add token l else classList_remove token l.

(** The click listeners [renderSettings] registers. *)
Inductive listener : Type :=
| CallSetLevel (level : Z)
| CallSetAlign (align : string).

(** A settings button (a SPAN). *)
Record button : Type := {
  b_classList : list string;
  b_innerHTML : option icon;
  b_dataset_level : option string;
  b_dataset_align : option string;
  b_textAlign : Js.value;
  b_click : option listener
}.

Definition createSpan : button :=
  {| b_classList := []; b_innerHTML := None; b_dataset_level := None;
     b_dataset_align := None; b_textAlign := Js.Str "";
     b_click := None |}.

Definition b_set_classList (l : list string) (b : button) : button :=
  {| b_classList := l; b_innerHTML := b_innerHTML b;
     b_dataset_level := b_dataset_level b;
     b_dataset_align := b_dataset_align b;
     b_textAlign := b_textAlign b; b_click := b_click b |}.

Definition b_set_innerHTML (i : icon) (b : button) : button :=
  {| b_classList := b_classList b; b_innerHTML := Some i;
     b_dataset_level := b_dataset_level b;
     b_dataset_align := b_dataset_align b;
     b_textAlign := b_textAlign b; b_click := b_click b |}.

Definition b_set_dataset_level (v : string) (b : button) : button :=
  {| b_classList := b_classList b; b_innerHTML := b_innerHTML b;
     b_dataset_level := Some v;
     b_dataset_align := b_dataset_align b;
     b_textAlign := b_textAlign b; b_click := b_click b |}.

Definition b_set_dataset_align (v : string) (b : button) : button :=
  {| b_classList := b_classList b; b_innerHTML := b_innerHTML b;
     b_dataset_level := b_dataset_level b;
     b_dataset_align := Some v;
     b_textAlign := b_textAlign b; b_click := b_click b |}.

Definition b_set_textAlign (v : Js.value) (b : button) : button :=
  {| b_classList := b_classList b; b_innerHTML := b_innerHTML b;
     b_dataset_level := b_dataset_level b;
     b_dataset_align := b_dataset_align b;
     b_textAlign := v; b_click := b_click b |}.

Definition b_addEventListener (l : listener) (b : button) : button :=
  {| b_classList := b_classList b; b_innerHTML := b_innerHTML b;
     b_dataset_level := b_dataset_level b;
     b_dataset_align := b_dataset_align b;
     b_textAlign := b_textAlign b; b_click := Some l |}.

(** A dataset entry read in a condition: defined and not empty. *)
Definition dataset_truthy (d : option string) : bool :=
  match d with
  | Some s => negb (s =? "")%string
  | None => false
  end.

Definition dataset_value (d : option string) : Js.value :=
  match d with
  | Some s => Js.Str s
  | None => Js.Undefined
  end.

End Dom.

(** ** [src/index.js]: levels H1..H3 with alignment *)

Module Index.
Import Dom.

(** [HeaderData]: the record the class stores in [_data] and returns from
    [save].  The fields hold whatever value was assigned. *)
Record HeaderData : Type := {
  text : Js.value;
  level : Js.value;
  align : Js.value
}.

(** The record as the object it is. *)
Definition to_object (d : HeaderData) : Js.value :=
  Js.Obj [("text", text d); ("level", level d); ("align", align d)].

(** [HeaderConfig] *)
Record HeaderConfig : Type := {
  placeholder : Js.value
}.

(** [api.styles], as far as the constructor reads it. *)
Record Styles : Type := {
  styles_block : string;
  styles_settingsButton : string;
  styles_settingsButtonActive : string
}.

(** [this._CSS] *)
Record CSS : Type := {
  block : string;
  settingsButton : string;
  settingsButtonActive : string;
  wrapper : string;
  css_align : Js.value
}.

(** An entry of [levels]. *)
Record levelItem : Type := {
  number : Z;
  tag : string;
  svg : icon
}.

(** An entry of [align]. *)
Record alignItem : Type := {
  item_align : string;
  item_svg : icon
}.

(** [get levels()] *)
Definition levels : list levelItem :=
  [ {| number := 1; tag := "H1"; svg := SvgH1 |};
    {| number := 2; tag := "H2"; svg := SvgH2 |};
    {| number := 3; tag := "H3"; svg := SvgH3 |} ].

(** [get align()], the registry of alignments (the name [align] is the
    field of [HeaderData] here). *)
Definition aligns : list alignItem :=
  [ {| item_align := "left"; item_svg := SvgAlignLeft |};
    {| item_align := "center"; item_svg := SvgAlignCenter |};
    {| item_align := "right"; item_svg := SvgAlignRight |} ].

(** [get defaultLevel()]: [this.levels[1]] *)
Definition defaultLevel : levelItem :=
  nth 1 levels {| number := 0; tag := ""; svg := SvgH1 |}.

(** [get defaultAlign()]: [this.align[0]] *)
Definition defaultAlign : alignItem :=
  nth 0 aligns {| item_align := ""; item_svg := SvgAlignLeft |}.

(** The instance. *)
Record Header : Type := {
  api : Styles;
  _CSS : CSS;
  _settings : HeaderConfig;
  _data : HeaderData;
  settingsButtons : list button;
  _element : element
}.

Definition with_data (d : HeaderData) (h : Header) : Header :=
  {| api := api h; _CSS := _CSS h; _settings := _settings h; _data := d;
     settingsButtons := settingsButtons h; _element := _element h |}.

Definition with_element (e : element) (h : Header) : Header :=
  {| api := api h; _CSS := _CSS h; _settings := _settings h;
     _data := _data h; settingsButtons := settingsButtons h;
     _element := e |}.

Definition with_settingsButtons (l : list button) (h : Header) : Header :=
  {| api := api h; _CSS := _CSS h; _settings := _settings h;
     _data := _data h; settingsButtons := l; _element := _element h |}.

(** [normalizeData(data)] *)
Definition normalizeData (data : Js.value) : Js.completion HeaderData :=
  let data :=
    if negb (Js.typeof data =? "object")%string then Js.Obj [] else data in
  t <- Js.get data "text" ;;
  l <- Js.get data "level" ;;
  a <- Js.get data "align" ;;
  Js.Ok {| text := Js.or t (Js.Str "");
           level := Js.or (Js.Num (Js.parseInt l))
                          (Js.Num (Js.Int (number defaultLevel)));
           align := Js.or a (Js.Str (item_align defaultAlign)) |}.

(** [get currentLevel()] *)
Definition currentLevel (h : Header) : levelItem :=
  match find (fun levelItem =>
                Js.strict_equal (Js.Num (Js.Int (number levelItem)))
                                (level (_data h))) levels with
  | Some l => l
  | None => defaultLevel
  end.

(** [get currentAlign()] *)
Definition currentAlign (h : Header) : alignItem :=
  match find (fun item =>
                Js.strict_equal (Js.Str (item_align item))
                                (align (_data h))) aligns with
  | Some a => a
  | None => defaultAlign
  end.

(** [getTag()] *)
Definition getTag (h : Header) : element :=
  let tag := createElement (tag (currentLevel h)) in
  let tag :=
    set_innerHTML (Js.to_string (Js.or (text (_data h)) (Js.Str ""))) tag in
  let tag :=
    set_classList (classList_add (wrapper (_CSS h)) (classList tag)) tag in
  let tag := set_textAlign (css_align (_CSS h)) tag in
  let tag := set_contentEditable "true" tag in
  set_placeholder
    (Js.to_string (Js.or (placeholder (_settings h)) (Js.Str ""))) tag.

(** [constructor({data, config, api})] *)
Definition constructor (data : Js.value) (config : HeaderConfig)
    (api : Styles) : Js.completion Header :=
  a <- Js.get data "align" ;;
  let css :=
    {| block := styles_block api;
       settingsButton := styles_settingsButton api;
       settingsButtonActive := styles_settingsButtonActive api;
       wrapper := "ce-header";
       css_align := Js.or a (Js.Str "left") |} in
  d <- normalizeData data ;;
  let h :=
    {| api := api; _CSS := css; _settings := config; _data := d;
       settingsButtons := []; _element := createElement "" |} in
  Js.Ok (with_element (getTag h) h).

(** [render()] *)
Definition render (h : Header) : element := _element h.

(** [get data()]: the state after the three assignments; the value of the
    getter is [_data] of that state. *)
Definition get_data (h : Header) : Header :=
  let h :=
    with_data {| text := Js.Str (innerHTML (_element h));
                 level := level (_data h);
                 align := align (_data h) |} h in
  let h :=
    with_data {| text := text (_data h);
                 level := Js.Num (Js.Int (number (currentLevel h)));
                 align := align (_data h) |} h in
  with_data {| text := text (_data h);
               level := level (_data h);
               align := Js.Str (item_align (currentAlign h)) |} h.

(** [set data(data)] *)
Definition set_data (data : Js.value) (h : Header) : Js.completion Header :=
  d <- normalizeData data ;;
  let h := with_data d h in
  l <- Js.get data "level" ;;
  h <- (if Js.is_defined l && parentNode (_element h) then
          let newHeader := getTag h in
          let newHeader :=
            set_innerHTML (innerHTML (_element h)) newHeader in
          a <- Js.get data "align" ;;
          let newHeader := set_textAlign a newHeader in
          let newHeader := replaceChild newHeader (_element h) in
          Js.Ok (with_element newHeader h)
        else Js.Ok h) ;;
  t <- Js.get data "text" ;;
  if Js.is_defined t then
    Js.Ok (with_element
             (set_innerHTML
                (Js.to_string (Js.or (text (_data h)) (Js.Str "")))
                (_element h)) h)
  else Js.Ok h.

(** [renderSettings()]: the buttons of the level group, then those of the
    alignment group.  The holder is given as the list of its children at
    the time of the call; the buttons themselves live on in
    [settingsButtons], which every later call appends to. *)
Definition levelButton (h : Header) (level : levelItem) : button :=
  let selectTypeButton := createSpan in
  let selectTypeButton :=
    b_set_classList
      (classList_add (settingsButton (_CSS h))
         (b_classList selectTypeButton)) selectTypeButton in
  let selectTypeButton :=
    if number (currentLevel h) =? number level then
      b_set_classList
        (classList_add (settingsButtonActive (_CSS h))
           (b_classList selectTypeButton)) selectTypeButton
    else selectTypeButton in
  let selectTypeButton := b_set_innerHTML (svg level) selectTypeButton in
  let selectTypeButton :=
    b_set_dataset_level
      (Js.to_string (Js.Num (Js.Int (number level)))) selectTypeButton in
  let selectTypeButton :=
    b_set_textAlign (css_align (_CSS h)) selectTypeButton in
  b_addEventListener (CallSetLevel (number level)) selectTypeButton.

Definition alignButton (h : Header) (item : alignItem) : button :=
  let selectTypeButton := createSpan in
  let selectTypeButton :=
    b_set_classList
      (classList_add (settingsButton (_CSS h))
         (b_classList selectTypeButton)) selectTypeButton in
  let selectTypeButton :=
    if (item_align (currentAlign h) =? item_align item)%string then
      b_set_classList
        (classList_add (settingsButtonActive (_CSS h))
           (b_classList selectTypeButton)) selectTypeButton
    else selectTypeButton in
  let selectTypeButton := b_set_innerHTML (item_svg item) selectTypeButton in
  let selectTypeButton :=
    b_set_dataset_align (item_align item) selectTypeButton in
  b_addEventListener (CallSetAlign (item_align item)) selectTypeButton.

Definition renderSettings (h : Header) : list button * Header :=
  let holder :=
    (map (levelButton h) levels ++ map (alignButton h) aligns)%list in
  (holder, with_settingsButtons (settingsButtons h ++ holder)%list h).

(** The body of the [forEach] of [setLevel]. *)
Definition toggleLevelButton (h : Header) (level : Js.value)
    (button : button) : Dom.button :=
  if dataset_truthy (b_dataset_level button) then
    b_set_classList
      (classList_toggle (settingsButtonActive (_CSS h))
         (Js.strict_equal
            (Js.Num (Js.parseInt (dataset_value (b_dataset_level button))))
            level)
         (b_classList button)) button
  else button.

(** [setLevel(level)] *)
Definition setLevel (level : Js.value) (h : Header) : Js.completion Header :=
  let h := get_data h in
  let a := align (_data h) in
  let h := get_data h in
  let t := text (_data h) in
  h <- set_data (Js.Obj [("level", level); ("align", a); ("text", t)]) h ;;
  Js.Ok (with_settingsButtons
           (map (toggleLevelButton h level) (settingsButtons h)) h).

(** The body of the [forEach] of [setAlign]. *)
Definition toggleAlignButton (h : Header) (align : Js.value)
    (button : button) : Dom.button :=
  if dataset_truthy (b_dataset_align button) then
    b_set_classList
      (classList_toggle (settingsButtonActive (_CSS h))
         (Js.strict_equal (dataset_value (b_dataset_align button)) align)
         (b_classList button)) button
  else button.

(** [setAlign(align)] *)
Definition setAlign (align : Js.value) (h : Header) : Js.completion Header :=
  let h := get_data h in
  let l := level (_data h) in
  let h := get_data h in
  let t := text (_data h) in
  h <- set_data (Js.Obj [("align", align); ("level", l); ("text", t)]) h ;;
  Js.Ok (with_settingsButtons
           (map (toggleAlignButton h align) (settingsButtons h)) h).

(** [merge(data)].  The call of [console.log] writes to the host's
    console, which is no part of the instance. *)
Definition merge (data : Js.value) (h : Header) : Js.completion Header :=
  let h := get_data h in
  let t := text (_data h) in
  t' <- Js.get data "text" ;;
  let h := get_data h in
  let l := level (_data h) in
  let h := get_data h in
  let a := align (_data h) in
  let newData :=
    Js.Obj [("text", Js.add t t'); ("level", l); ("align", a)] in
  set_data newData h.

(** [validate(blockData)] *)
Definition validate (blockData : Js.value) : Js.completion bool :=
  t <- Js.get blockData "text" ;;
  s <- Js.call_trim t ;;
  Js.Ok (negb (s =? "")%string).

(** [save(toolsContent)] *)
Definition save (toolsContent : element) (h : Header) : HeaderData :=
  {| text := Js.Str (innerHTML toolsContent);
     level := Js.Num (Js.Int (number (currentLevel h)));
     align := Js.Str (item_align (currentAlign h)) |}.

(** The pasted content: [event.detail.data]. *)
Record PasteEvent : Type := {
  detail_data : element
}.

(** [onPaste(event)] *)
Definition onPaste (event : PasteEvent) (h : Header)
  : Js.completion Header :=
  let content := detail_data event in
  let level := 2 in
  let align := "left" in
  let level :=
    if (tagName content =? "H1")%string then 1
    else if (tagName content =? "H3")%string then 3
    else level in
  set_data (Js.Obj [("level", Js.Num (Js.Int level));
                    ("align", Js.Str align);
                    ("text", Js.Str (innerHTML content))]) h.

(** [static get pasteConfig()], the tags *)
Definition pasteConfig : list string := ["H1"; "H2"; "H3"].

(** A record whose level and align are those of registry entries. *)
Definition resolved (d : HeaderData) : Prop :=
  (exists entry,
      In entry levels /\ level d = Js.Num (Js.Int (number entry))) /\
  (exists item,
      In item aligns /\ align d = Js.Str (item_align item)).

(** An instance as the constructor makes it from a host whose class
    names are tokens: the class names are [valid_token]s, and the
    alignment style and the placeholder are [convertible].  On such an
    instance no assignment to the DOM raises. *)
Definition well_formed (h : Header) : Prop :=
  valid_token (wrapper (_CSS h)) = true /\
  valid_token (settingsButton (_CSS h)) = true /\
  valid_token (settingsButtonActive (_CSS h)) = true /\
  Js.convertible (css_align (_CSS h)) = true /\
  Js.convertible (placeholder (_settings h)) = true.

(** The rendered element is in a host container and carries the tag of
    the current level. *)
Definition tag_in_sync (h : Header) : Prop :=
  parentNode (_element h) = true /\
  tagName (_element h) = tag (currentLevel h).

(** What the host does with an instance between construction and
    disposal: it puts the rendered element in its container, opens the
    settings, clicks a settings button, merges a block in, pastes. *)
Inductive hostCall : Type :=
| Attach
| RenderSettings
| Click (i : nat)
| Merge (data : Js.value)
| Paste (event : PasteEvent).

Definition dispatch (l : option listener) (h : Header)
  : Js.completion Header :=
  match l with
  | Some (CallSetLevel n) => setLevel (Js.Num (Js.Int n)) h
  | Some (CallSetAlign a) => setAlign (Js.Str a) h
  | None => Js.Ok h
  end.

Definition call (c : hostCall) (h : Header) : Js.completion Header :=
  match c with
  | Attach => Js.Ok (with_element (set_parentNode true (_element h)) h)
  | RenderSettings => Js.Ok (snd (renderSettings h))
  | Click i =>
      match nth_error (settingsButtons h) i with
      | Some b => dispatch (b_click b) h
      | None => Js.Ok h
      end
  | Merge data => merge data h
  | Paste event => onPaste event h
  end.

Fixpoint run (calls : list hostCall) (h : Header) : Js.completion Header :=
  match calls with
  | [] => Js.Ok h
  | c :: rest => h' <- call c h ;; run rest h'
  end.

(** The settings panels: each call of [renderSettings] appends one
    button per level and one per alignment. *)
Fixpoint panels (l : list button) : list (list button) :=
  match l with
  | b1 :: b2 :: b3 :: b4 :: b5 :: b6 :: rest =>
      [b1; b2; b3; b4; b5; b6] :: panels rest
  | _ => []
  end.

(** A button is highlighted when its class list has the active class. *)
Definition lit (active : string) (b : button) : bool :=
  contains active (b_classList b).

Definition highlighted (h : Header) (b : button) : bool :=
  lit (settingsButtonActive (_CSS h)) b.

(** The two groups of settings buttons, told apart as [setLevel] and
    [setAlign] do. *)
Definition levelGroup (l : list button) : list button :=
  filter (fun b => dataset_truthy (b_dataset_level b)) l.

Definition alignGroup (l : list button) : list button :=
  filter (fun b => dataset_truthy (b_dataset_align b)) l.

(** What every rendered panel carries, whatever is selected: the datasets
    and the listeners of its six buttons. *)
Definition marks (b : button)
  : option string * option string * option listener :=
  (b_dataset_level b, b_dataset_align b, b_click b).

Definition panel_marks
  : list (option string * option string * option listener) :=
  [ (Some "1", None, Some (CallSetLevel 1));
    (Some "2", None, Some (CallSetLevel 2));
    (Some "3", None, Some (CallSetLevel 3));
    (None, Some "left", Some (CallSetAlign "left"));
    (None, Some "center", Some (CallSetAlign "center"));
    (None, Some "right", Some (CallSetAlign "right")) ].

(** A panel with exactly one highlighted button in each group. *)
Definition one_each (active : string) (panel : list button) : Prop :=
  map marks panel = panel_marks /\
  List.length (filter (lit active) (levelGroup panel)) = 1%nat /\
  List.length (filter (lit active) (alignGroup panel)) = 1%nat.

(** The settings buttons after [n] calls of [renderSettings]: [n] panels,
    each with one highlighted button per group. *)
Definition settings_ok (active : string) (n : nat) (bs : list button) : Prop :=
  exists ps,
    bs = List.concat ps /\ List.length ps = n /\ Forall (one_each active) ps.

(** The number of times the host opened the settings. *)
Definition renders (calls : list hostCall) : nat :=
  List.length
    (filter (fun c => match c with RenderSettings => true | _ => false end)
       calls).

End Index.

(** ** The variant with levels H2..H4 and no alignment *)

Module Part000.
Import Dom.

(** [HeaderData] *)
Record HeaderData : Type := {
  text : Js.value;
  level : Js.value
}.

Definition to_object (d : HeaderData) : Js.value :=
  Js.Obj [("text", text d); ("level", level d)].

(** [HeaderConfig] *)
Record HeaderConfig : Type := {
  placeholder : Js.value
}.

Record Styles : Type := {
  styles_block : string;
  styles_settingsButton : string;
  styles_settingsButtonActive : string
}.

(** [this._CSS] *)
Record CSS : Type := {
  block : string;
  settingsButton : string;
  settingsButtonActive : string;
  wrapper : string
}.

Record levelItem : Type := {
  number : Z;
  tag : string;
  svg : icon
}.

(** [get levels()] *)
Definition levels : list levelItem :=
  [ {| number := 2; tag := "H2"; svg := SvgH2 |};
    {| number := 3; tag := "H3"; svg := SvgH3 |};
    {| number := 4; tag := "H4"; svg := SvgH4 |} ].

(** [get defaultLevel()]: [this.levels[2]], under the comment
    "Use H2 as default header". *)
Definition defaultLevel : levelItem :=
  nth 2 levels {| number := 0; tag := ""; svg := SvgH2 |}.

Record Header : Type := {
  api : Styles;
  _CSS : CSS;
  _settings : HeaderConfig;
  _data : HeaderData;
  settingsButtons : list button;
  _element : element
}.

Definition with_data (d : HeaderData) (h : Header) : Header :=
  {| api := api h; _CSS := _CSS h; _settings := _settings h; _data := d;
     settingsButtons := settingsButtons h; _element := _element h |}.

Definition with_element (e : element) (h : Header) : Header :=
  {| api := api h; _CSS := _CSS h; _settings := _settings h;
     _data := _data h; settingsButtons := settingsButtons h;
     _element := e |}.

Definition with_settingsButtons (l : list button) (h : Header) : Header :=
  {| api := api h; _CSS := _CSS h; _settings := _settings h;
     _data := _data h; settingsButtons := l; _element := _element h |}.

(** [normalizeData(data)] *)
Definition normalizeData (data : Js.value) : Js.completion HeaderData :=
  let data :=
    if negb (Js.typeof data =? "object")%string then Js.Obj [] else data in
  t <- Js.get data "text" ;;
  l <- Js.get data "level" ;;
  Js.Ok {| text := Js.or t (Js.Str "");
           level := Js.or (Js.Num (Js.parseInt l))
                          (Js.Num (Js.Int (number defaultLevel))) |}.

(** [get currentLevel()] *)
Definition currentLevel (h : Header) : levelItem :=
  match find (fun levelItem =>
                Js.strict_equal (Js.Num (Js.Int (number levelItem)))
                                (level (_data h))) levels with
  | Some l => l
  | None => defaultLevel
  end.

(** [getTag()] *)
Definition getTag (h : Header) : element :=
  let tag := createElement (tag (currentLevel h)) in
  let tag :=
    set_innerHTML (Js.to_string (Js.or (text (_data h)) (Js.Str ""))) tag in
  let tag :=
    set_classList (classList_add (wrapper (_CSS h)) (classList tag)) tag in
  let tag := set_contentEditable "true" tag in
  set_placeholder
    (Js.to_string (Js.or (placeholder (_settings h)) (Js.Str ""))) tag.

(** [constructor({data, config, api})] *)
Definition constructor (data : Js.value) (config : HeaderConfig)
    (api : Styles) : Js.completion Header :=
  let css :=
    {| block := styles_block api;
       settingsButton := styles_settingsButton api;
       settingsButtonActive := styles_settingsButtonActive api;
       wrapper := "ce-header" |} in
  d <- normalizeData data ;;
  let h :=
    {| api := api; _CSS := css; _settings := config; _data := d;
       settingsButtons := []; _element := createElement "" |} in
  Js.Ok (with_element (getTag h) h).

(** [render()] *)
Definition render (h : Header) : element := _element h.

(** [get data()] *)
Definition get_data (h : Header) : Header :=
  let h :=
    with_data {| text := Js.Str (innerHTML (_element h));
                 level := level (_data h) |} h in
  with_data {| text := text (_data h);
               level := Js.Num (Js.Int (number (currentLevel h))) |} h.

(** [set data(data)] *)
Definition set_data (data : Js.value) (h : Header) : Js.completion Header :=
  d <- normalizeData data ;;
  let h := with_data d h in
  l <- Js.get data "level" ;;
  let h :=
    if Js.is_defined l && parentNode (_element h) then
      let newHeader := getTag h in
      let newHeader := set_innerHTML (innerHTML (_element h)) newHeader in
      let newHeader := replaceChild newHeader (_element h) in
      with_element newHeader h
    else h in
  t <- Js.get data "text" ;;
  if Js.is_defined t then
    Js.Ok (with_element
             (set_innerHTML
                (Js.to_string (Js.or (text (_data h)) (Js.Str "")))
                (_element h)) h)
  else Js.Ok h.

(** [renderSettings()] *)
Definition levelButton (h : Header) (level : levelItem) : button :=
  let selectTypeButton := createSpan in
  let selectTypeButton :=
    b_set_classList
      (classList_add (settingsButton (_CSS h))
         (b_classList selectTypeButton)) selectTypeButton in
  let selectTypeButton :=
    if number (currentLevel h) =? number level then
      b_set_classList
        (classList_add (settingsButtonActive (_CSS h))
           (b_classList selectTypeButton)) selectTypeButton
    else selectTypeButton in
  let selectTypeButton := b_set_innerHTML (svg level) selectTypeButton in
  let selectTypeButton :=
    b_set_dataset_level
      (Js.to_string (Js.Num (Js.Int (number level)))) selectTypeButton in
  b_addEventListener (CallSetLevel (number level)) selectTypeButton.

Definition renderSettings (h : Header) : list button * Header :=
  let holder := map (levelButton h) levels in
  (holder, with_settingsButtons (settingsButtons h ++ holder)%list h).

(** The body of the [forEach] of [setLevel]. *)
Definition toggleLevelButton (h : Header) (level : Js.value)
    (button : button) : Dom.button :=
  if dataset_truthy (b_dataset_level button) then
    b_set_classList
      (classList_toggle (settingsButtonActive (_CSS h))
         (Js.strict_equal
            (Js.Num (Js.parseInt (dataset_value (b_dataset_level button))))
            level)
         (b_classList button)) button
  else button.

(** [setLevel(level)] *)
Definition setLevel (level : Js.value) (h : Header) : Js.completion Header :=
  let h := get_data h in
  let t := text (_data h) in
  h <- set_data (Js.Obj [("level", level); ("text", t)]) h ;;
  Js.Ok (with_settingsButtons
           (map (toggleLevelButton h level) (settingsButtons h)) h).

(** [merge(data)] *)
Definition merge (data : Js.value) (h : Header) : Js.completion Header :=
  let h := get_data h in
  let t := text (_data h) in
  t' <- Js.get data "text" ;;
  let h := get_data h in
  let l := level (_data h) in
  let newData := Js.Obj [("text", Js.add t t'); ("level", l)] in
  set_data newData h.

(** [validate(blockData)] *)
Definition validate (blockData : Js.value) : Js.completion bool :=
  t <- Js.get blockData "text" ;;
  s <- Js.call_trim t ;;
  Js.Ok (negb (s =? "")%string).

(** [save(toolsContent)] *)
Definition save (toolsContent : element) (h : Header) : HeaderData :=
  {| text := Js.Str (innerHTML toolsContent);
     level := Js.Num (Js.Int (number (currentLevel h))) |}.

Record PasteEvent : Type := {
  detail_data : element
}.

(** [onPaste(event)] *)
Definition onPaste (event : PasteEvent) (h : Header)
  : Js.completion Header :=
  let content := detail_data event in
  let level := 2 in
  let level :=
    if (tagName content =? "H2")%string then 2
    else if (tagName content =? "H3")%string then 3
    else if (tagName content =? "H4")%string then 4
    else level in
  set_data (Js.Obj [("level", Js.Num (Js.Int level));
                    ("text", Js.Str (innerHTML content))]) h.

(** [static get pasteConfig()], the tags *)
Definition pasteConfig : list string := ["H2"; "H3"; "H4"].

(** A record whose level is that of a registry entry. *)
Definition resolved (d : HeaderData) : Prop :=
  exists entry,
    In entry levels /\ level d = Js.Num (Js.Int (number entry)).

(** An instance as the constructor makes it from a host whose class
    names are tokens. *)
Definition well_formed (h : Header) : Prop :=
  valid_token (wrapper (_CSS h)) = true /\
  valid_token (settingsButton (_CSS h)) = true /\
  valid_token (settingsButtonActive (_CSS h)) = true /\
  Js.convertible (placeholder (_settings h)) = true.

End Part000.

(** ** A host and a block, for concrete runs *)

Module Sample.
Import Dom.

(** The class names the editor hands to its tools. *)
Definition styles : Index.Styles :=
  {| Index.styles_block := "cdx-block";
     Index.styles_settingsButton := "cdx-settings-button";
     Index.styles_settingsButtonActive := "cdx-settings-button--active" |}.

Definition config : Index.HeaderConfig :=
  {| Index.placeholder := Js.Str "Title" |}.

(** [{text: "Hi", level: 3, align: "center"}] *)
Definition data : Js.value :=
  Js.Obj [("text", Js.Str "Hi"); ("level", Js.Num (Js.Int 3));
          ("align", Js.Str "center")].

(** The block built from [data], as the constructor leaves it. *)
Definition block : Index.Header :=
  {| Index.api := styles;
     Index._CSS :=
       {| Index.block := "cdx-block";
          Index.settingsButton := "cdx-settings-button";
          Index.settingsButtonActive := "cdx-settings-button--active";
          Index.wrapper := "ce-header";
          Index.css_align := Js.Str "center" |};
     Index._settings := config;
     Index._data :=
       {| Index.text := Js.Str "Hi"; Index.level := Js.Num (Js.Int 3);
          Index.align := Js.Str "center" |};
     Index.settingsButtons := [];
     Index._element :=
       {| tagName := "H3"; innerHTML := "Hi"; classList := ["ce-header"];
          style_textAlign := Js.Str "center"; contentEditable := "true";
          dataset_placeholder := Some "Title"; parentNode := false |} |}.

(** The same for the variant with levels H2..H4. *)
Definition styles0 : Part000.Styles :=
  {| Part000.styles_block := "cdx-block";
     Part000.styles_settingsButton := "cdx-settings-button";
     Part000.styles_settingsButtonActive := "cdx-settings-button--active" |}.

Definition block0 : Part000.Header :=
  {| Part000.api := styles0;
     Part000._CSS :=
       {| Part000.block := "cdx-block";
          Part000.settingsButton := "cdx-settings-button";
          Part000.settingsButtonActive := "cdx-settings-button--active";
          Part000.wrapper := "ce-header" |};
     Part000._settings := {| Part000.placeholder := Js.Str "Title" |};
     Part000._data :=
       {| Part000.text := Js.Str "Hi"; Part000.level := Js.Num (Js.Int 3) |};
     Part000.settingsButtons := [];
     Part000._element :=
       {| tagName := "H3"; innerHTML := "Hi"; classList := ["ce-header"];
          style_textAlign := Js.Str ""; contentEditable := "true";
          dataset_placeholder := Some "Title"; parentNode := false |} |}.

(** A session: the host shows the block, opens the settings, and the user
    clicks the first level button and the last alignment button. *)
Definition calls : list Index.hostCall :=
  [Index.Attach; Index.RenderSettings; Index.Click 0; Index.Click 5].

Definition opened : Index.Header :=
  Eval vm_compute in
    match Js.bind (Index.constructor data config styles) (Index.run calls)
    with
    | Js.Ok h => h
    | Js.Throw _ => block
    end.

(** Pasted content: a heading of the given tag. *)
Definition pasted (tag : string) : element :=
  set_innerHTML "Pasted" (createElement tag).

(** The blocks once the host has put them in its container. *)
Definition shown : Index.Header :=
  Index.with_element (set_parentNode true (Index._element block)) block.

Definition shown0 : Part000.Header :=
  Part000.with_element (set_parentNode true (Part000._element block0))
    block0.

End Sample.

(** Splits a panel into its six buttons, with their datasets and
    listeners. *)
Ltac panel_cases H p :=
  destruct p as [| b1 p]; [discriminate H|];
  destruct p as [| b2 p]; [discriminate H|];
  destruct p as [| b3 p]; [discriminate H|];
  destruct p as [| b4 p]; [discriminate H|];
  destruct p as [| b5 p]; [discriminate H|];
  destruct p as [| b6 p]; [discriminate H|];
  destruct p; [|discriminate H];
  cbn [map] in H; unfold Index.panel_marks, Index.marks in H;
  injection H as ? ? ? ? ? ?;
  repeat match goal with
    | E : (_, _, _) = (_, _, _) |- _ => injection E as ? ? ?
    end.

(** ** Facts about the JavaScript operations *)

Section JsFacts.
Import Js.

Lemma or_or (a b : value) : or (or a b) b = or a b.
Proof.
  unfold or. destruct (truthy a) eqn:Ha.
  - now rewrite Ha.
  - now destruct (truthy b).
Qed.

(** The ten digit characters. *)
Lemma digit_cases (d : Z) :
  0 <= d < 10 ->
  d = 0 \/ d = 1 \/ d = 2 \/ d = 3 \/ d = 4 \/
  d = 5 \/ d = 6 \/ d = 7 \/ d = 8 \/ d = 9.
Proof. lia. Qed.

Lemma digit_value_digit_char (d : Z) :
  0 <= d < 10 -> digit_value (digit_char d) = Some d.
Proof.
  intros H. destruct (digit_cases d H) as [-> | [-> | [-> | [-> | [-> |
    [-> | [-> | [-> | [-> | ->]]]]]]]]]; reflexivity.
Qed.

(** Reading the digits that [decimal_aux] wrote gives the number back, on
    top of what was read before. *)
Lemma parse_decimal_aux (fuel : nat) :
  forall (z : Z) (rest : string) (acc : option Z),
    0 <= z < 10 ^ Z.of_nat (S fuel) ->
    exists k,
      0 < k /\
      parse_digits 10 (decimal_aux fuel z rest) acc =
      parse_digits 10 rest
        (Some (match acc with Some a => a | None => 0 end * 10 ^ k + z)).
Proof.
  induction fuel as [| fuel IH]; intros z rest acc Hz.
  - exists 1. split; [lia|]. cbn [decimal_aux parse_digits].
    change (10 ^ Z.of_nat 1) with 10 in Hz.
    rewrite Z.mod_small by lia.
    rewrite digit_value_digit_char by lia.
    replace (z <? 10) with true by (symmetry; apply Z.ltb_lt; lia).
    f_equal. f_equal. lia.
  - cbn [decimal_aux]. destruct (z <? 10) eqn:Hlt.
    + apply Z.ltb_lt in Hlt. exists 1. split; [lia|].
      cbn [parse_digits]. rewrite Z.mod_small by lia.
      rewrite digit_value_digit_char by lia.
      replace (z <? 10) with true by (symmetry; apply Z.ltb_lt; lia).
      f_equal. f_equal. lia.
    + apply Z.ltb_ge in Hlt.
      assert (Hq : 0 <= z / 10 < 10 ^ Z.of_nat (S fuel)).
      { split; [apply Z.div_pos; lia|].
        apply Z.div_lt_upper_bound; [lia|].
        replace (10 * 10 ^ Z.of_nat (S fuel))
          with (10 ^ Z.of_nat (S (S fuel))); [lia|].
        rewrite (Nat2Z.inj_succ (S fuel)), Z.pow_succ_r by lia.
        reflexivity. }
      destruct (IH (z / 10) (String (digit_char (z mod 10)) rest) acc Hq)
        as [k [Hk ->]].
      exists (k + 1). split; [lia|].
      cbn [parse_digits].
      assert (Hm : 0 <= z mod 10 < 10) by (apply Z.mod_pos_bound; lia).
      rewrite digit_value_digit_char by exact Hm.
      replace (z mod 10 <? 10) with true by (symmetry; apply Z.ltb_lt; lia).
      f_equal. f_equal.
      rewrite Z.pow_add_r by lia. change (10 ^ 1) with 10.
      pose proof (Z.div_mod z 10 ltac:(lia)). lia.
Qed.

Lemma decimal_fuel (z : Z) :
  0 <= z -> 0 <= z < 10 ^ Z.of_nat (S (Z.to_nat (Z.log2 z))).
Proof.
  intros Hz. split; [exact Hz|].
  rewrite Nat2Z.inj_succ, Z2Nat.id by apply Z.log2_nonneg.
  destruct (Z.eq_dec z 0) as [-> | Hnz]; [reflexivity|].
  pose proof (Z.log2_spec z ltac:(lia)) as [_ Hup].
  eapply Z.lt_le_trans; [exact Hup|].
  apply Z.pow_le_mono_l. pose proof (Z.log2_nonneg z). lia.
Qed.

Lemma parse_decimal (z : Z) :
  0 <= z -> parse_digits 10 (decimal z) None = Some z.
Proof.
  intros Hz. unfold decimal.
  destruct (parse_decimal_aux _ z "" None (decimal_fuel z Hz))
    as [k [_ ->]].
  cbn [parse_digits]. f_equal; lia.
Qed.

Lemma decimal_aux_head (fuel : nat) :
  forall (z : Z) (acc : string),
    digits_head (String "0" acc) ->
    digits_head (decimal_aux fuel z acc).
Proof.
  assert (Hstep : forall z acc,
             digits_head (String "0" acc) ->
             digits_head (String (digit_char (z mod 10)) acc)).
  { intros z acc (d & tail & _ & Heq & Htail).
    injection Heq as _ <-.
    exists (z mod 10), acc. repeat split; try easy.
    all: apply Z.mod_pos_bound; lia. }
  induction fuel as [| fuel IH]; intros z acc Hacc; cbn [decimal_aux].
  - now apply Hstep.
  - destruct (z <? 10); [now apply Hstep|].
    apply IH. exists 0, (String (digit_char (z mod 10)) acc).
    repeat split; try easy. right.
    exists (z mod 10), acc. repeat split; try easy.
    all: apply Z.mod_pos_bound; lia.
Qed.

Lemma decimal_head (z : Z) : digits_head (decimal z).
Proof.
  apply decimal_aux_head. exists 0, "". repeat split; try easy. now left.
Qed.

Lemma strip_digits (s : string) :
  digits_head s ->
  trimStart s = s /\ strip_sign s = (false, s) /\ strip_prefix s = (10, s).
Proof.
  intros (d & tail & Hd & -> & Htail).
  destruct (digit_cases d Hd) as [-> | [-> | [-> | [-> | [-> |
    [-> | [-> | [-> | [-> | ->]]]]]]]]]; try (repeat split; reflexivity).
  destruct Htail as [-> | (d' & tail' & Hd' & ->)];
    [repeat split; reflexivity|].
  destruct (digit_cases d' Hd') as [-> | [-> | [-> | [-> | [-> |
    [-> | [-> | [-> | [-> | ->]]]]]]]]]; repeat split; reflexivity.
Qed.

(** [parseInt] reads back an integer that was printed in plain decimal
    notation. *)
Lemma parseInt_number (z : Z) :
  plain (Int z) = true -> parseInt (Num (Int z)) = Int z.
Proof.
  cbn [plain]. intros Hz. apply Z.ltb_lt in Hz.
  unfold parseInt. cbn [to_string number_to_string].
  replace (Z.abs z <? 10 ^ 21) with true by (symmetry; now apply Z.ltb_lt).
  destruct (strip_digits _ (decimal_head (Z.abs z))) as (Ht & Hs & Hp).
  unfold parseInt_string.
  destruct (z <? 0) eqn:Hneg.
  - apply Z.ltb_lt in Hneg.
    change (trimStart ("-" ++ decimal (Z.abs z)))
      with ("-" ++ decimal (Z.abs z)).
    change (strip_sign ("-" ++ decimal (Z.abs z)))
      with (true, decimal (Z.abs z)).
    cbv iota beta. rewrite Hp, parse_decimal by lia. f_equal. lia.
  - apply Z.ltb_ge in Hneg.
    rewrite Ht, Hs. cbv iota beta.
    rewrite Hp, parse_decimal by lia. f_equal. lia.
Qed.

Lemma value_eq_Null (v : value) : v = Null \/ v <> Null.
Proof. destruct v; (now left) || (right; discriminate). Qed.

(** [parseInt] and the printing of numbers on some inputs. *)
Example parseInt_units : parseInt (Str "  -42px") = Int (-42).
Proof. reflexivity. Qed.

Example parseInt_hexadecimal : parseInt (Str "0x1f") = Int 31.
Proof. reflexivity. Qed.

Example parseInt_no_digits :
  parseInt Undefined = NaN /\ parseInt (Str "") = NaN /\
  parseInt (Obj []) = NaN.
Proof. repeat split. Qed.

Example to_string_1e21 :
  to_string (Num (Int (2 ^ 53))) = "9007199254740992" /\
  to_string (Num (Int (10 ^ 21))) = "1e+21" /\
  to_string (Num (Int (-12 * 10 ^ 21))) = "-1.2e+22".
Proof. repeat split; vm_compute; reflexivity. Qed.

Example parseInt_1e21 : parseInt (Num (Int (10 ^ 21))) = Int 1.
Proof. vm_compute. reflexivity. Qed.

Example trim_blank : trim "  a b  " = "a b" /\ trim "   " = "".
Proof. split; reflexivity. Qed.

(** U+00A0 and U+FEFF are white space, U+200B is not. *)
Example trim_unicode :
  trim (String (ascii_of_nat 194) (String (ascii_of_nat 160) "a")) = "a" /\
  trim (String "a" (String (ascii_of_nat 239) (String (ascii_of_nat 187)
          (String (ascii_of_nat 191) "")))) = "a" /\
  blank (String (ascii_of_nat 226) (String (ascii_of_nat 128)
           (String (ascii_of_nat 139) ""))) = false.
Proof. repeat split. Qed.

(** A safe integer prints in plain decimal notation. *)
Lemma safe_plain (n : number) : safe n = true -> plain n = true.
Proof.
  destruct n as [| z]; [reflexivity|]. cbn [safe plain]. intros H.
  apply Z.leb_le in H. apply Z.ltb_lt.
  assert (2 ^ 53 < 10 ^ 21) by reflexivity. lia.
Qed.

(** On an [exact] value that is a number, [parseInt] is the identity. *)
Lemma parseInt_exact (n : number) :
  exact (Num n) = true -> parseInt (Num n) = n.
Proof.
  destruct n as [| z]; [reflexivity|]. cbn [exact convertible andb].
  intros H. apply parseInt_number. now apply safe_plain.
Qed.

End JsFacts.

(** ** Facts about the DOM *)

Section DomFacts.
Import Dom.


Example serialization_ampersand :
  serialization "a & b" = Some "a &amp; b" /\
  serialization "1 > 0" = Some "1 &gt; 0" /\
  serialization "Hi" = Some "Hi" /\
  serialization "<b>Hi</b>" = None /\
  serialization "&amp;" = None.
Proof. repeat split. Qed.

End DomFacts.

(** ** Facts about [src/index.js] *)

Section IndexFacts.
Import Js Dom Index.

Lemma Index_normalizeData_object (props : list (string * value)) :
  normalizeData (Obj props) =
  Ok {| text := or (field "text" props) (Str "");
        level := or (Num (parseInt (field "level" props)))
                    (Num (Int (number defaultLevel)));
        align := or (field "align" props) (Str (item_align defaultAlign)) |}.
Proof. reflexivity. Qed.

Lemma Index_normalizeData_primitive (d : value) :
  typeof d <> "object" -> normalizeData d = normalizeData (Obj []).
Proof. destruct d; intros H; try reflexivity; now elim H. Qed.

Lemma Index_normalizeData_raw (d : value) :
  d <> Null ->
  normalizeData d =
  Ok {| text := or (raw d "text") (Str "");
        level := or (Num (parseInt (raw d "level")))
                    (Num (Int (number defaultLevel)));
        align := or (raw d "align") (Str (item_align defaultAlign)) |}.
Proof. destruct d; intros H; try reflexivity; now elim H. Qed.

Lemma Index_currentLevel_in (h : Header) : In (currentLevel h) levels.
Proof.
  unfold currentLevel.
  destruct (find _ levels) eqn:Hf.
  - now apply find_some in Hf.
  - cbn. tauto.
Qed.

Lemma Index_currentAlign_in (h : Header) : In (currentAlign h) aligns.
Proof.
  unfold currentAlign.
  destruct (find _ aligns) eqn:Hf.
  - now apply find_some in Hf.
  - cbn. tauto.
Qed.

(** [currentLevel] of a record whose level is a registry number is the
    entry of that number. *)
Lemma Index_currentLevel_registry (h : Header) (entry : levelItem) :
  In entry levels ->
  level (_data h) = Num (Int (number entry)) ->
  currentLevel h = entry.
Proof.
  unfold currentLevel. intros Hin ->.
  cbn in Hin. destruct Hin as [<- | [<- | [<- | []]]]; reflexivity.
Qed.

Lemma Index_currentAlign_registry (h : Header) (item : alignItem) :
  In item aligns ->
  align (_data h) = Str (item_align item) ->
  currentAlign h = item.
Proof.
  unfold currentAlign. intros Hin ->.
  cbn in Hin. destruct Hin as [<- | [<- | [<- | []]]]; reflexivity.
Qed.

(** What the getter leaves in [_data]. *)
Lemma Index_get_data_spec (h : Header) :
  _data (get_data h) =
  {| text := Str (innerHTML (_element h));
     level := Num (Int (number (currentLevel h)));
     align := Str (item_align (currentAlign h)) |}.
Proof. reflexivity. Qed.

Lemma Index_get_data_idem (h : Header) :
  get_data (get_data h) = get_data h.
Proof.
  unfold get_data at 1. cbn [with_data _data _element text level align].
  rewrite (Index_currentLevel_registry _ (currentLevel h));
    [| apply Index_currentLevel_in | reflexivity].
  rewrite (Index_currentAlign_registry _ (currentAlign h));
    [| apply Index_currentAlign_in | reflexivity].
  reflexivity.
Qed.

(** A registry level number survives [parseInt] and [||]. *)
Lemma Index_level_kept (entry : levelItem) (dflt : value) :
  In entry levels ->
  or (Num (parseInt (Num (Int (number entry))))) dflt =
  Num (Int (number entry)).
Proof.
  cbn. intros [<- | [<- | [<- | []]]]; reflexivity.
Qed.

Lemma Index_align_kept (item : alignItem) (dflt : value) :
  In item aligns -> or (Str (item_align item)) dflt = Str (item_align item).
Proof.
  cbn. intros [<- | [<- | [<- | []]]]; reflexivity.
Qed.

(** What the setter does, for every payload that is not [null] or
    [undefined]: [_data] is the normalised payload, the element is rebuilt
    in place when a level is given and the element is attached, and the
    markup is overwritten when a text is given. *)
Lemma Index_set_data_spec (data : value) (h : Header) :
  data <> Null -> data <> Undefined ->
  exists d h',
    normalizeData data = Ok d /\
    set_data data h = Ok h' /\
    _data h' = d /\
    settingsButtons h' = settingsButtons h /\
    _CSS h' = _CSS h /\
    _settings h' = _settings h /\
    parentNode (_element h') = parentNode (_element h) /\
    innerHTML (_element h') =
      (if is_defined (raw data "text")
       then to_string (or (text d) (Str ""))
       else innerHTML (_element h)).
Proof.
  intros Hnull Hundef.
  assert (Hget : forall name, get data name = Ok (raw data name))
    by (destruct data; try reflexivity; congruence).
  unfold set_data. rewrite (Index_normalizeData_raw data Hnull).
  eexists. cbn [bind]. rewrite !Hget. cbn [bind].
  destruct (is_defined (raw data "level") &&
            parentNode (_element (with_data _ h))) eqn:Hre;
    cbn [bind]; destruct (is_defined (raw data "text"));
    eexists; repeat split.
  all: cbn in Hre; apply andb_prop in Hre as [_ Hp]; now rewrite Hp.
Qed.

Lemma or_str_empty (s : string) : or (Str s) (Str "") = Str s.
Proof.
  unfold or. cbn [truthy]. destruct (s =? "")%string eqn:Hs; [|reflexivity].
  apply String.eqb_eq in Hs. now subst.
Qed.

(** What [merge] leaves behind when the merged record carries a string as
    text. *)
Lemma Index_merge_spec (h : Header) (B : value) (t : string) :
  get B "text" = Ok (Str t) ->
  exists h',
    merge B h = Ok h' /\
    _data h' =
      {| text := Str (innerHTML (_element h) ++ t);
         level := Num (Int (number (currentLevel h)));
         align := Str (item_align (currentAlign h)) |} /\
    innerHTML (_element h') = innerHTML (_element h) ++ t.
Proof.
  intros HB. unfold merge. rewrite HB. cbn [bind].
  rewrite !Index_get_data_idem, Index_get_data_spec.
  cbn [text level align add to_string].
  match goal with |- context [set_data ?x ?y] =>
    destruct (Index_set_data_spec x y)
      as (d & h' & Hd & Hset & Hdata & _ & _ & _ & _ & Hhtml) end;
    try discriminate.
  exists h'. split; [exact Hset|].
  rewrite Index_normalizeData_object in Hd.
  cbn [field lookup String.eqb Ascii.eqb Bool.eqb] in Hd.
  rewrite or_str_empty in Hd.
  rewrite Index_level_kept in Hd by apply Index_currentLevel_in.
  rewrite Index_align_kept in Hd by apply Index_currentAlign_in.
  injection Hd as <-.
  split; [exact Hdata|].
  rewrite Hhtml.
  cbn [raw field lookup String.eqb Ascii.eqb Bool.eqb is_defined text].
  rewrite or_str_empty. reflexivity.
Qed.

Lemma Index_get_data_resolved (h : Header) : resolved (_data (get_data h)).
Proof.
  split.
  - exists (currentLevel h). split; [apply Index_currentLevel_in|reflexivity].
  - exists (currentAlign h). split; [apply Index_currentAlign_in|reflexivity].
Qed.

(** The setter stores a resolved record when the payload carries a registry
    level and a registry align. *)
Lemma Index_set_data_resolved (props : list (string * value)) (h : Header)
    (entry : levelItem) (item : alignItem) :
  In entry levels -> In item aligns ->
  field "level" props = Num (Int (number entry)) ->
  field "align" props = Str (item_align item) ->
  exists h', set_data (Obj props) h = Ok h' /\ resolved (_data h').
Proof.
  intros Hl Ha El Ea.
  destruct (Index_set_data_spec (Obj props) h)
    as (d & h' & Hd & Hset & Hdata & _); try discriminate.
  exists h'. split; [exact Hset|]. rewrite Hdata.
  rewrite Index_normalizeData_object in Hd. injection Hd as <-.
  split.
  - exists entry. split; [exact Hl|]. cbn [level]. rewrite El.
    now apply Index_level_kept.
  - exists item. split; [exact Ha|]. cbn [align]. rewrite Ea.
    now apply Index_align_kept.
Qed.

Lemma Index_onPaste_resolved (event : PasteEvent) (h : Header) :
  exists h', onPaste event h = Ok h' /\ resolved (_data h').
Proof.
  unfold onPaste.
  destruct (tagName (detail_data event) =? "H1")%string;
    [|destruct (tagName (detail_data event) =? "H3")%string].
  - apply (Index_set_data_resolved _ h (nth 0 levels defaultLevel)
             (nth 0 aligns defaultAlign)); cbn; tauto.
  - apply (Index_set_data_resolved _ h (nth 2 levels defaultLevel)
             (nth 0 aligns defaultAlign)); cbn; tauto.
  - apply (Index_set_data_resolved _ h (nth 1 levels defaultLevel)
             (nth 0 aligns defaultAlign)); cbn; tauto.
Qed.

Lemma Index_merge_resolved (B t' : value) (h : Header) :
  get B "text" = Ok t' ->
  exists h', merge B h = Ok h' /\ resolved (_data h').
Proof.
  intros HB. unfold merge. rewrite HB. cbn [bind].
  rewrite !Index_get_data_idem.
  apply (Index_set_data_resolved _ _ (currentLevel h) (currentAlign h));
    try reflexivity.
  - apply Index_currentLevel_in.
  - apply Index_currentAlign_in.
Qed.

Lemma Index_setLevel_resolved (entry : levelItem) (h : Header) :
  In entry levels ->
  exists h',
    setLevel (Num (Int (number entry))) h = Ok h' /\ resolved (_data h').
Proof.
  intros Hin. unfold setLevel. rewrite !Index_get_data_idem.
  destruct (Index_set_data_resolved
              [("level", Num (Int (number entry)));
               ("align", align (_data (get_data h)));
               ("text", text (_data (get_data h)))]
              (get_data h) entry (currentAlign h) Hin
              (Index_currentAlign_in h) eq_refl eq_refl)
    as (h1 & -> & Hres).
  eexists. split; [reflexivity|]. exact Hres.
Qed.

Lemma Index_setAlign_resolved (item : alignItem) (h : Header) :
  In item aligns ->
  exists h',
    setAlign (Str (item_align item)) h = Ok h' /\ resolved (_data h').
Proof.
  intros Hin. unfold setAlign. rewrite !Index_get_data_idem.
  destruct (Index_set_data_resolved
              [("align", Str (item_align item));
               ("level", level (_data (get_data h)));
               ("text", text (_data (get_data h)))]
              (get_data h) (currentLevel h) item
              (Index_currentLevel_in h) Hin eq_refl eq_refl)
    as (h1 & -> & Hres).
  eexists. split; [reflexivity|]. exact Hres.
Qed.

End IndexFacts.

(** ** The settings buttons of [src/index.js] *)

Section SettingsFacts.
Import Js Dom Index.

Lemma contains_add (t : string) (l : list string) :
  contains t (classList_add t l) = true.
Proof.
  unfold classList_add. destruct (contains t l) eqn:E; [exact E|].
  unfold contains. rewrite existsb_app. cbn.
  now rewrite String.eqb_refl, orb_true_r.
Qed.

Lemma contains_remove (t : string) (l : list string) :
  contains t (classList_remove t l) = false.
Proof.
  unfold contains, classList_remove.
  induction l as [| c l IH]; [reflexivity|].
  cbn. destruct (t =? c)%string eqn:E; cbn; [exact IH|].
  now rewrite E, IH.
Qed.

Lemma lit_toggle (active : string) (force : bool) (b : button) :
  lit active
    (b_set_classList (classList_toggle active force (b_classList b)) b) =
  force.
Proof.
  unfold lit. cbn [b_classList b_set_classList].
  destruct force; cbn [classList_toggle].
  - apply contains_add.
  - apply contains_remove.
Qed.

Lemma toggleLevelButton_marks h v b :
  marks (toggleLevelButton h v b) = marks b.
Proof. unfold toggleLevelButton. now destruct (dataset_truthy _). Qed.

Lemma toggleAlignButton_marks h v b :
  marks (toggleAlignButton h v b) = marks b.
Proof. unfold toggleAlignButton. now destruct (dataset_truthy _). Qed.

Lemma toggleLevelButton_level h v b :
  b_dataset_level (toggleLevelButton h v b) = b_dataset_level b.
Proof. unfold toggleLevelButton. now destruct (dataset_truthy _). Qed.

Lemma toggleLevelButton_align h v b :
  b_dataset_align (toggleLevelButton h v b) = b_dataset_align b.
Proof. unfold toggleLevelButton. now destruct (dataset_truthy _). Qed.

Lemma toggleLevelButton_lit h v b s :
  b_dataset_level b = Some s -> s <> "" ->
  highlighted h (toggleLevelButton h v b) =
  strict_equal (Num (parseInt (Str s))) v.
Proof.
  intros Hs Hne. unfold toggleLevelButton, highlighted. rewrite Hs.
  cbn [dataset_truthy dataset_value].
  apply String.eqb_neq in Hne. rewrite Hne. cbn [negb].
  apply lit_toggle.
Qed.

Lemma toggleLevelButton_skip h v b :
  b_dataset_level b = None -> toggleLevelButton h v b = b.
Proof. unfold toggleLevelButton. now intros ->. Qed.

Lemma toggleLevel_panel (h : Header) (entry : levelItem) (p : list button) :
  In entry levels ->
  map marks p = panel_marks ->
  map marks (map (toggleLevelButton h (Num (Int (number entry)))) p) =
    panel_marks /\
  (exists b,
      filter (highlighted h)
        (levelGroup (map (toggleLevelButton h (Num (Int (number entry)))) p)) =
        [b] /\
      b_dataset_level b = Some (to_string (Num (Int (number entry))))) /\
  alignGroup (map (toggleLevelButton h (Num (Int (number entry)))) p) =
    alignGroup p.
Proof.
  intros Hin Hm. split.
  { rewrite map_map, <- Hm. apply map_ext, toggleLevelButton_marks. }
  panel_cases Hm p.
  unfold levelGroup, alignGroup. cbn [map filter].
  rewrite !toggleLevelButton_level, !toggleLevelButton_align.
  repeat match goal with E : b_dataset_level _ = _ |- _ => rewrite E end.
  repeat match goal with E : b_dataset_align _ = _ |- _ => rewrite E end.
  cbn [dataset_truthy String.eqb Ascii.eqb Bool.eqb negb filter].
  rewrite (toggleLevelButton_lit h _ b1 "1"),
    (toggleLevelButton_lit h _ b2 "2"),
    (toggleLevelButton_lit h _ b3 "3") by (assumption || discriminate).
  rewrite (toggleLevelButton_skip h _ b4), (toggleLevelButton_skip h _ b5),
    (toggleLevelButton_skip h _ b6) by assumption.
  split; [|reflexivity].
  cbn in Hin.
  destruct Hin as [<- | [<- | [<- | []]]]; eexists;
  (split; [reflexivity|]);
  rewrite toggleLevelButton_level;
  match goal with E : ?x = _ |- ?x = _ => rewrite E end; reflexivity.
Qed.

Lemma toggleAlignButton_level h v b :
  b_dataset_level (toggleAlignButton h v b) = b_dataset_level b.
Proof. unfold toggleAlignButton. now destruct (dataset_truthy _). Qed.

Lemma toggleAlignButton_align h v b :
  b_dataset_align (toggleAlignButton h v b) = b_dataset_align b.
Proof. unfold toggleAlignButton. now destruct (dataset_truthy _). Qed.

Lemma toggleAlignButton_lit h v b s :
  b_dataset_align b = Some s -> s <> "" ->
  highlighted h (toggleAlignButton h v b) = strict_equal (Str s) v.
Proof.
  intros Hs Hne. unfold toggleAlignButton, highlighted. rewrite Hs.
  cbn [dataset_truthy dataset_value].
  apply String.eqb_neq in Hne. rewrite Hne. cbn [negb].
  apply lit_toggle.
Qed.

Lemma toggleAlignButton_skip h v b :
  b_dataset_align b = None -> toggleAlignButton h v b = b.
Proof. unfold toggleAlignButton. now intros ->. Qed.

Lemma toggleAlign_panel (h : Header) (item : alignItem) (p : list button) :
  In item aligns ->
  map marks p = panel_marks ->
  map marks (map (toggleAlignButton h (Str (item_align item))) p) =
    panel_marks /\
  (exists b,
      filter (highlighted h)
        (alignGroup (map (toggleAlignButton h (Str (item_align item))) p)) =
        [b] /\
      b_dataset_align b = Some (item_align item)) /\
  levelGroup (map (toggleAlignButton h (Str (item_align item))) p) =
    levelGroup p.
Proof.
  intros Hin Hm. split.
  { rewrite map_map, <- Hm. apply map_ext, toggleAlignButton_marks. }
  panel_cases Hm p.
  unfold levelGroup, alignGroup. cbn [map filter].
  rewrite !toggleAlignButton_level, !toggleAlignButton_align.
  repeat match goal with E : b_dataset_level _ = _ |- _ => rewrite E end.
  repeat match goal with E : b_dataset_align _ = _ |- _ => rewrite E end.
  cbn [dataset_truthy String.eqb Ascii.eqb Bool.eqb negb filter].
  rewrite (toggleAlignButton_lit h _ b4 "left"),
    (toggleAlignButton_lit h _ b5 "center"),
    (toggleAlignButton_lit h _ b6 "right") by (assumption || discriminate).
  rewrite (toggleAlignButton_skip h _ b1), (toggleAlignButton_skip h _ b2),
    (toggleAlignButton_skip h _ b3) by assumption.
  split; [|reflexivity].
  cbn in Hin.
  destruct Hin as [<- | [<- | [<- | []]]]; eexists;
  (split; [reflexivity|]);
  rewrite toggleAlignButton_align;
  match goal with E : ?x = _ |- ?x = _ => rewrite E end; reflexivity.
Qed.

Lemma levelButton_marks (h : Header) (lv : levelItem) :
  marks (levelButton h lv) =
  (Some (to_string (Num (Int (number lv)))), None,
   Some (CallSetLevel (number lv))).
Proof. unfold levelButton. now destruct (_ =? _). Qed.

Lemma alignButton_marks (h : Header) (item : alignItem) :
  marks (alignButton h item) =
  (None, Some (item_align item), Some (CallSetAlign (item_align item))).
Proof. unfold alignButton. now destruct (_ =? _)%string. Qed.

Lemma contains_single (t c : string) :
  c <> t -> contains t (classList_add c []) = false.
Proof.
  intros Hne. cbn. apply String.eqb_neq in Hne.
  rewrite String.eqb_sym, Hne. reflexivity.
Qed.

Lemma levelButton_lit (h : Header) (lv : levelItem) :
  settingsButton (_CSS h) <> settingsButtonActive (_CSS h) ->
  highlighted h (levelButton h lv) = (number (currentLevel h) =? number lv).
Proof.
  intros Hne. unfold highlighted, lit, levelButton.
  destruct (_ =? _); cbn [b_classList b_addEventListener b_set_textAlign
    b_set_dataset_level b_set_innerHTML b_set_classList createSpan].
  - apply contains_add.
  - now apply contains_single.
Qed.

Lemma alignButton_lit (h : Header) (item : alignItem) :
  settingsButton (_CSS h) <> settingsButtonActive (_CSS h) ->
  highlighted h (alignButton h item) =
  (item_align (currentAlign h) =? item_align item)%string.
Proof.
  intros Hne. unfold highlighted, lit, alignButton.
  destruct (_ =? _)%string; cbn [b_classList b_addEventListener
    b_set_dataset_align b_set_innerHTML b_set_classList createSpan].
  - apply contains_add.
  - now apply contains_single.
Qed.

Lemma renderSettings_panel (h : Header) :
  settingsButton (_CSS h) <> settingsButtonActive (_CSS h) ->
  one_each (settingsButtonActive (_CSS h)) (fst (renderSettings h)).
Proof.
  intros Hne. unfold one_each.
  change (fst (renderSettings h))
    with [levelButton h (nth 0 levels defaultLevel);
          levelButton h (nth 1 levels defaultLevel);
          levelButton h (nth 2 levels defaultLevel);
          alignButton h (nth 0 aligns defaultAlign);
          alignButton h (nth 1 aligns defaultAlign);
          alignButton h (nth 2 aligns defaultAlign)].
  split; [cbn [map]; now rewrite !levelButton_marks, !alignButton_marks|].
  unfold levelGroup, alignGroup. cbn [filter].
  repeat match goal with
    | |- context [b_dataset_level (levelButton h ?l)] =>
        replace (b_dataset_level (levelButton h l))
          with (fst (fst (marks (levelButton h l)))) by reflexivity;
        rewrite levelButton_marks
    | |- context [b_dataset_align (levelButton h ?l)] =>
        replace (b_dataset_align (levelButton h l))
          with (snd (fst (marks (levelButton h l)))) by reflexivity;
        rewrite levelButton_marks
    | |- context [b_dataset_level (alignButton h ?l)] =>
        replace (b_dataset_level (alignButton h l))
          with (fst (fst (marks (alignButton h l)))) by reflexivity;
        rewrite alignButton_marks
    | |- context [b_dataset_align (alignButton h ?l)] =>
        replace (b_dataset_align (alignButton h l))
          with (snd (fst (marks (alignButton h l)))) by reflexivity;
        rewrite alignButton_marks
    end.
  cbn [fst snd dataset_truthy].
  repeat match goal with
    | |- context [negb ?x] =>
        let y := eval vm_compute in (negb x) in change (negb x) with y
    end.
  cbn [filter].
  change (lit (settingsButtonActive (_CSS h))) with (highlighted h).
  rewrite !levelButton_lit, !alignButton_lit by assumption.
  pose proof (Index_currentLevel_in h) as Hl.
  pose proof (Index_currentAlign_in h) as Ha.
  cbn in Hl, Ha.
  destruct Hl as [<- | [<- | [<- | []]]];
    destruct Ha as [<- | [<- | [<- | []]]]; split; reflexivity.
Qed.

Lemma panels_concat (active : string) (ps : list (list button)) :
  Forall (one_each active) ps -> panels (List.concat ps) = ps.
Proof.
  induction 1 as [| p ps [Hm _] _ IH]; [reflexivity|].
  panel_cases Hm p. cbn [List.concat app panels]. now rewrite IH.
Qed.

Lemma one_each_toggleLevel (h : Header) (entry : levelItem) (p : list button) :
  In entry levels ->
  one_each (settingsButtonActive (_CSS h)) p ->
  one_each (settingsButtonActive (_CSS h))
    (map (toggleLevelButton h (Num (Int (number entry)))) p).
Proof.
  intros Hin (Hm & _ & Ha).
  destruct (toggleLevel_panel h entry p Hin Hm) as (Hm' & (b & Hb & _) & Hal).
  repeat split; [exact Hm' | | now rewrite Hal].
  change (lit (settingsButtonActive (_CSS h))) with (highlighted h).
  now rewrite Hb.
Qed.

Lemma one_each_toggleAlign (h : Header) (item : alignItem) (p : list button) :
  In item aligns ->
  one_each (settingsButtonActive (_CSS h)) p ->
  one_each (settingsButtonActive (_CSS h))
    (map (toggleAlignButton h (Str (item_align item))) p).
Proof.
  intros Hin (Hm & Hl & _).
  destruct (toggleAlign_panel h item p Hin Hm) as (Hm' & (b & Hb & _) & Hlv).
  repeat split; [exact Hm' | now rewrite Hlv |].
  change (lit (settingsButtonActive (_CSS h))) with (highlighted h).
  now rewrite Hb.
Qed.

Lemma setLevel_spec (v : value) (h : Header) :
  exists h1,
    setLevel v h =
      Ok (with_settingsButtons
            (map (toggleLevelButton h1 v) (settingsButtons h1)) h1) /\
    settingsButtons h1 = settingsButtons h /\
    _CSS h1 = _CSS h.
Proof.
  unfold setLevel.
  match goal with |- context [set_data ?x ?y] =>
    destruct (Index_set_data_spec x y)
      as (d & h1 & _ & -> & _ & Hb & Hc & _) end; try discriminate.
  exists h1. repeat split; assumption.
Qed.

Lemma setAlign_spec (v : value) (h : Header) :
  exists h1,
    setAlign v h =
      Ok (with_settingsButtons
            (map (toggleAlignButton h1 v) (settingsButtons h1)) h1) /\
    settingsButtons h1 = settingsButtons h /\
    _CSS h1 = _CSS h.
Proof.
  unfold setAlign.
  match goal with |- context [set_data ?x ?y] =>
    destruct (Index_set_data_spec x y)
      as (d & h1 & _ & -> & _ & Hb & Hc & _) end; try discriminate.
  exists h1. repeat split; assumption.
Qed.

Lemma settings_ok_setLevel (entry : levelItem) (n : nat) (h h' : Header) :
  In entry levels ->
  settings_ok (settingsButtonActive (_CSS h)) n (settingsButtons h) ->
  setLevel (Num (Int (number entry))) h = Ok h' ->
  _CSS h' = _CSS h /\
  settings_ok (settingsButtonActive (_CSS h')) n (settingsButtons h').
Proof.
  intros Hin (ps & Hbs & Hn & Hps) Hset.
  destruct (setLevel_spec (Num (Int (number entry))) h) as (h1 & E & Hb & Hc).
  rewrite E in Hset. injection Hset as <-.
  cbn [_CSS settingsButtons with_settingsButtons]. split; [exact Hc|].
  rewrite Hb, Hbs, concat_map.
  exists (map (map (toggleLevelButton h1 (Num (Int (number entry))))) ps).
  repeat split; [now rewrite length_map|].
  apply Forall_map. rewrite Hc in *.
  eapply Forall_impl; [|exact Hps]. intros p Hp.
  rewrite <- Hc. apply one_each_toggleLevel; [exact Hin|]. now rewrite Hc.
Qed.

Lemma settings_ok_setAlign (item : alignItem) (n : nat) (h h' : Header) :
  In item aligns ->
  settings_ok (settingsButtonActive (_CSS h)) n (settingsButtons h) ->
  setAlign (Str (item_align item)) h = Ok h' ->
  _CSS h' = _CSS h /\
  settings_ok (settingsButtonActive (_CSS h')) n (settingsButtons h').
Proof.
  intros Hin (ps & Hbs & Hn & Hps) Hset.
  destruct (setAlign_spec (Str (item_align item)) h) as (h1 & E & Hb & Hc).
  rewrite E in Hset. injection Hset as <-.
  cbn [_CSS settingsButtons with_settingsButtons]. split; [exact Hc|].
  rewrite Hb, Hbs, concat_map.
  exists (map (map (toggleAlignButton h1 (Str (item_align item)))) ps).
  repeat split; [now rewrite length_map|].
  apply Forall_map. rewrite Hc in *.
  eapply Forall_impl; [|exact Hps]. intros p Hp.
  rewrite <- Hc. apply one_each_toggleAlign; [exact Hin|]. now rewrite Hc.
Qed.

Lemma set_data_frame (data : value) (h h' : Header) :
  set_data data h = Ok h' ->
  settingsButtons h' = settingsButtons h /\ _CSS h' = _CSS h.
Proof.
  intros Hset.
  assert (Hnull : data <> Null) by (intros ->; discriminate Hset).
  assert (Hundef : data <> Undefined) by (intros ->; discriminate Hset).
  destruct (Index_set_data_spec data h Hnull Hundef)
    as (d & h1 & _ & E & _ & Hb & Hc & _).
  rewrite E in Hset. injection Hset as <-. now split.
Qed.

Lemma merge_frame (data : value) (h h' : Header) :
  merge data h = Ok h' ->
  settingsButtons h' = settingsButtons h /\ _CSS h' = _CSS h.
Proof.
  unfold merge. destruct (get data "text") as [t' |]; [|discriminate].
  cbn [bind]. intros Hset. now apply set_data_frame in Hset.
Qed.

Lemma onPaste_frame (event : PasteEvent) (h h' : Header) :
  onPaste event h = Ok h' ->
  settingsButtons h' = settingsButtons h /\ _CSS h' = _CSS h.
Proof. unfold onPaste. apply set_data_frame. Qed.

Lemma settings_ok_click (active : string) (n : nat) (bs : list button)
    (i : nat) (b : button) :
  settings_ok active n bs ->
  nth_error bs i = Some b ->
  (exists entry,
      In entry levels /\ b_click b = Some (CallSetLevel (number entry))) \/
  (exists item,
      In item aligns /\
      b_click b = Some (CallSetAlign (item_align item))).
Proof.
  intros (ps & -> & _ & Hps) Hnth.
  apply nth_error_In, in_concat in Hnth. destruct Hnth as (p & Hp & Hb).
  rewrite Forall_forall in Hps. destruct (Hps p Hp) as (Hm & _).
  panel_cases Hm p.
  cbn in Hb.
  destruct Hb as [<- | [<- | [<- | [<- | [<- | [<- | []]]]]]].
  - left. exists (nth 0 levels defaultLevel). cbn. tauto.
  - left. exists (nth 1 levels defaultLevel). cbn. tauto.
  - left. exists (nth 2 levels defaultLevel). cbn. tauto.
  - right. exists (nth 0 aligns defaultAlign). cbn. tauto.
  - right. exists (nth 1 aligns defaultAlign). cbn. tauto.
  - right. exists (nth 2 aligns defaultAlign). cbn. tauto.
Qed.

Lemma settings_ok_call (c : hostCall) (n : nat) (h h' : Header) :
  settingsButton (_CSS h) <> settingsButtonActive (_CSS h) ->
  settings_ok (settingsButtonActive (_CSS h)) n (settingsButtons h) ->
  call c h = Ok h' ->
  _CSS h' = _CSS h /\
  settings_ok (settingsButtonActive (_CSS h')) (renders [c] + n)
    (settingsButtons h').
Proof.
  intros Hne Hok Hcall. destruct c as [| | i | data | event]; cbn in Hcall.
  - injection Hcall as <-. now split.
  - injection Hcall as <-. split; [reflexivity|].
    destruct Hok as (ps & Hbs & Hn & Hps).
    exists (ps ++ [fst (renderSettings h)])%list.
    cbn [renderSettings snd fst settingsButtons with_settingsButtons _CSS].
    repeat split.
    + rewrite concat_app, Hbs. cbn [List.concat]. now rewrite app_nil_r.
    + rewrite length_app, Hn. cbn. lia.
    + apply Forall_app. split; [exact Hps|].
      constructor; [|constructor]. now apply renderSettings_panel.
  - destruct (nth_error (settingsButtons h) i) as [b |] eqn:Hnth.
    + destruct (settings_ok_click _ _ _ _ _ Hok Hnth)
        as [(entry & Hin & Hb) | (item & Hin & Hb)];
        rewrite Hb in Hcall; cbn [dispatch] in Hcall.
      * now apply (settings_ok_setLevel entry n h h' Hin Hok).
      * now apply (settings_ok_setAlign item n h h' Hin Hok).
    + injection Hcall as <-. now split.
  - apply merge_frame in Hcall as [-> ->]. now split.
  - apply onPaste_frame in Hcall as [-> ->]. now split.
Qed.

Lemma settings_ok_run (calls : list hostCall) :
  forall (n : nat) (h h' : Header),
    settingsButton (_CSS h) <> settingsButtonActive (_CSS h) ->
    settings_ok (settingsButtonActive (_CSS h)) n (settingsButtons h) ->
    run calls h = Ok h' ->
    _CSS h' = _CSS h /\
    settings_ok (settingsButtonActive (_CSS h')) (renders calls + n)
      (settingsButtons h').
Proof.
  induction calls as [| c calls IH]; intros n h h' Hne Hok Hrun.
  - injection Hrun as <-. now split.
  - cbn [run] in Hrun. destruct (call c h) as [h1 |] eqn:Hc; [|discriminate].
    cbn [bind] in Hrun.
    destruct (settings_ok_call c n h h1 Hne Hok Hc) as (Hcss & Hok1).
    destruct (IH _ h1 h' ltac:(now rewrite Hcss) Hok1 Hrun) as (Hcss' & Hok').
    split; [congruence|].
    replace (renders (c :: calls) + n)%nat
      with (renders calls + (renders [c] + n))%nat; [exact Hok'|].
    unfold renders. cbn [filter]. destruct c; cbn [List.length]; lia.
Qed.

Lemma constructor_settings (data : value) (config : HeaderConfig)
    (api : Styles) (h : Header) :
  constructor data config api = Ok h ->
  settingsButton (_CSS h) = styles_settingsButton api /\
  settingsButtonActive (_CSS h) = styles_settingsButtonActive api /\
  settingsButtons h = [].
Proof.
  unfold constructor.
  destruct (get data "align"); [|discriminate]. cbn [bind].
  destruct (normalizeData data); [|discriminate]. cbn [bind].
  intros E. injection E as <-. repeat split.
Qed.

Lemma filter_concat_map (f : button -> bool) (g : list button -> list button)
    (ps : list (list button)) :
  Forall (fun p => filter f (g p) = filter f p) ps ->
  filter f (List.concat (map g ps)) = filter f (List.concat ps).
Proof.
  induction 1 as [| p ps Hp _ IH]; [reflexivity|].
  cbn [map List.concat]. now rewrite !filter_app, Hp, IH.
Qed.

Lemma setLevel_highlight (entry : levelItem) (n : nat) (h : Header) :
  In entry levels ->
  settings_ok (settingsButtonActive (_CSS h)) n (settingsButtons h) ->
  exists h',
    setLevel (Num (Int (number entry))) h = Ok h' /\
    Forall (fun panel =>
              exists b,
                filter (highlighted h') (levelGroup panel) = [b] /\
                b_dataset_level b =
                  Some (to_string (Num (Int (number entry)))))
           (panels (settingsButtons h')) /\
    alignGroup (settingsButtons h') = alignGroup (settingsButtons h).
Proof.
  intros Hin Hok.
  destruct (setLevel_spec (Num (Int (number entry))) h) as (h1 & E & Hb & Hc).
  eexists. split; [exact E|].
  destruct (settings_ok_setLevel entry n h _ Hin Hok E) as (_ & Hok').
  destruct Hok as (ps & Hbs & Hn & Hps).
  cbn [settingsButtons with_settingsButtons] in Hok' |- *.
  rewrite Hb, Hbs, concat_map. split.
  - rewrite (panels_concat (settingsButtonActive (_CSS h))).
    + apply Forall_map. eapply Forall_impl; [|exact Hps].
      intros p (Hm & _).
      destruct (toggleLevel_panel h1 entry p Hin Hm) as (_ & Hex & _).
      exact Hex.
    + apply Forall_map. eapply Forall_impl; [|exact Hps].
      intros p Hp. rewrite <- Hc. apply one_each_toggleLevel; [exact Hin|].
      now rewrite Hc.
  - unfold alignGroup. apply filter_concat_map.
    eapply Forall_impl; [|exact Hps]. intros p (Hm & _).
    destruct (toggleLevel_panel h1 entry p Hin Hm) as (_ & _ & Hal).
    exact Hal.
Qed.

Lemma setAlign_highlight (item : alignItem) (n : nat) (h : Header) :
  In item aligns ->
  settings_ok (settingsButtonActive (_CSS h)) n (settingsButtons h) ->
  exists h',
    setAlign (Str (item_align item)) h = Ok h' /\
    Forall (fun panel =>
              exists b,
                filter (highlighted h') (alignGroup panel) = [b] /\
                b_dataset_align b = Some (item_align item))
           (panels (settingsButtons h')) /\
    levelGroup (settingsButtons h') = levelGroup (settingsButtons h).
Proof.
  intros Hin Hok.
  destruct (setAlign_spec (Str (item_align item)) h) as (h1 & E & Hb & Hc).
  eexists. split; [exact E|].
  destruct (settings_ok_setAlign item n h _ Hin Hok E) as (_ & Hok').
  destruct Hok as (ps & Hbs & Hn & Hps).
  cbn [settingsButtons with_settingsButtons] in Hok' |- *.
  rewrite Hb, Hbs, concat_map. split.
  - rewrite (panels_concat (settingsButtonActive (_CSS h))).
    + apply Forall_map. eapply Forall_impl; [|exact Hps].
      intros p (Hm & _).
      destruct (toggleAlign_panel h1 item p Hin Hm) as (_ & Hex & _).
      exact Hex.
    + apply Forall_map. eapply Forall_impl; [|exact Hps].
      intros p Hp. rewrite <- Hc. apply one_each_toggleAlign; [exact Hin|].
      now rewrite Hc.
  - unfold levelGroup. apply filter_concat_map.
    eapply Forall_impl; [|exact Hps]. intros p (Hm & _).
    destruct (toggleAlign_panel h1 item p Hin Hm) as (_ & _ & Hlv).
    exact Hlv.
Qed.

End SettingsFacts.

(** ** Facts about the variant with levels H2..H4 *)

Section Part000Facts.
Import Js Dom Part000.

Lemma Part000_normalizeData_raw (d : value) :
  d <> Null ->
  normalizeData d =
  Ok {| text := or (raw d "text") (Str "");
        level := or (Num (parseInt (raw d "level")))
                    (Num (Int (number defaultLevel))) |}.
Proof. destruct d; intros H; try reflexivity; now elim H. Qed.

Lemma Part000_currentLevel_in (h : Header) : In (currentLevel h) levels.
Proof.
  unfold currentLevel.
  destruct (find _ levels) eqn:Hf.
  - now apply find_some in Hf.
  - cbn. tauto.
Qed.

Lemma Part000_currentLevel_registry (h : Header) (entry : levelItem) :
  In entry levels ->
  level (_data h) = Num (Int (number entry)) ->
  currentLevel h = entry.
Proof.
  unfold currentLevel. intros Hin ->.
  cbn in Hin. destruct Hin as [<- | [<- | [<- | []]]]; reflexivity.
Qed.

Lemma Part000_get_data_spec (h : Header) :
  _data (get_data h) =
  {| text := Str (innerHTML (_element h));
     level := Num (Int (number (currentLevel h))) |}.
Proof. reflexivity. Qed.

Lemma Part000_get_data_idem (h : Header) :
  get_data (get_data h) = get_data h.
Proof.
  unfold get_data at 1. cbn [with_data _data _element text level].
  rewrite (Part000_currentLevel_registry _ (currentLevel h));
    [| apply Part000_currentLevel_in | reflexivity].
  reflexivity.
Qed.

Lemma Part000_level_kept (entry : levelItem) (dflt : value) :
  In entry levels ->
  or (Num (parseInt (Num (Int (number entry))))) dflt =
  Num (Int (number entry)).
Proof.
  cbn. intros [<- | [<- | [<- | []]]]; reflexivity.
Qed.

Lemma Part000_set_data_spec (data : value) (h : Header) :
  data <> Null -> data <> Undefined ->
  exists d h',
    normalizeData data = Ok d /\
    set_data data h = Ok h' /\
    _data h' = d /\
    settingsButtons h' = settingsButtons h /\
    _CSS h' = _CSS h /\
    _settings h' = _settings h /\
    parentNode (_element h') = parentNode (_element h) /\
    innerHTML (_element h') =
      (if is_defined (raw data "text")
       then to_string (or (text d) (Str ""))
       else innerHTML (_element h)).
Proof.
  intros Hnull Hundef.
  assert (Hget : forall name, get data name = Ok (raw data name))
    by (destruct data; try reflexivity; congruence).
  unfold set_data. rewrite (Part000_normalizeData_raw data Hnull).
  eexists. cbn [bind]. rewrite !Hget. cbn [bind].
  destruct (is_defined (raw data "level") &&
            parentNode (_element (with_data _ h))) eqn:Hre;
    cbn [bind]; destruct (is_defined (raw data "text"));
    eexists; repeat split.
  all: cbn in Hre; apply andb_prop in Hre as [_ Hp]; now rewrite Hp.
Qed.

Lemma Part000_merge_spec (h : Header) (B : value) (t : string) :
  get B "text" = Ok (Str t) ->
  exists h',
    merge B h = Ok h' /\
    _data h' =
      {| text := Str (innerHTML (_element h) ++ t);
         level := Num (Int (number (currentLevel h))) |} /\
    innerHTML (_element h') = innerHTML (_element h) ++ t.
Proof.
  intros HB. unfold merge. rewrite HB. cbn [bind].
  rewrite !Part000_get_data_idem, Part000_get_data_spec.
  cbn [text level add to_string].
  match goal with |- context [set_data ?x ?y] =>
    destruct (Part000_set_data_spec x y)
      as (d & h' & Hd & Hset & Hdata & _ & _ & _ & _ & Hhtml) end;
    try discriminate.
  exists h'. split; [exact Hset|].
  rewrite (Part000_normalizeData_raw (Obj _)) in Hd by discriminate.
  cbn [raw field lookup String.eqb Ascii.eqb Bool.eqb] in Hd.
  rewrite or_str_empty in Hd.
  rewrite Part000_level_kept in Hd by apply Part000_currentLevel_in.
  injection Hd as <-.
  split; [exact Hdata|].
  rewrite Hhtml.
  cbn [raw field lookup String.eqb Ascii.eqb Bool.eqb is_defined text].
  rewrite or_str_empty. reflexivity.
Qed.

Lemma Part000_set_data_resolved (props : list (string * value)) (h : Header)
    (entry : levelItem) :
  In entry levels ->
  field "level" props = Num (Int (number entry)) ->
  exists h', set_data (Obj props) h = Ok h' /\ resolved (_data h').
Proof.
  intros Hl El.
  destruct (Part000_set_data_spec (Obj props) h)
    as (d & h' & Hd & Hset & Hdata & _); try discriminate.
  exists h'. split; [exact Hset|]. rewrite Hdata.
  rewrite (Part000_normalizeData_raw (Obj props)) in Hd by discriminate.
  injection Hd as <-.
  exists entry. split; [exact Hl|]. cbn [level raw]. rewrite El.
  now apply Part000_level_kept.
Qed.

Lemma Part000_onPaste_resolved (event : PasteEvent) (h : Header) :
  exists h', onPaste event h = Ok h' /\ resolved (_data h').
Proof.
  unfold onPaste.
  destruct (tagName (detail_data event) =? "H2")%string;
    [|destruct (tagName (detail_data event) =? "H3")%string;
      [|destruct (tagName (detail_data event) =? "H4")%string]].
  - apply (Part000_set_data_resolved _ h (nth 0 levels defaultLevel));
      cbn; tauto.
  - apply (Part000_set_data_resolved _ h (nth 1 levels defaultLevel));
      cbn; tauto.
  - apply (Part000_set_data_resolved _ h (nth 2 levels defaultLevel));
      cbn; tauto.
  - apply (Part000_set_data_resolved _ h (nth 0 levels defaultLevel));
      cbn; tauto.
Qed.

Lemma Part000_merge_resolved (B t' : value) (h : Header) :
  get B "text" = Ok t' ->
  exists h', merge B h = Ok h' /\ resolved (_data h').
Proof.
  intros HB. unfold merge. rewrite HB. cbn [bind].
  rewrite !Part000_get_data_idem.
  apply (Part000_set_data_resolved _ _ (currentLevel h)); try reflexivity.
  apply Part000_currentLevel_in.
Qed.

Lemma Part000_setLevel_resolved (entry : levelItem) (h : Header) :
  In entry levels ->
  exists h',
    setLevel (Num (Int (number entry))) h = Ok h' /\ resolved (_data h').
Proof.
  intros Hin. unfold setLevel.
  destruct (Part000_set_data_resolved
              [("level", Num (Int (number entry)));
               ("text", text (_data (get_data h)))]
              (get_data h) entry Hin eq_refl)
    as (h1 & -> & Hres).
  eexists. split; [reflexivity|]. exact Hres.
Qed.

End Part000Facts.

(** ** The claims *)

Section Claims.
Import Js Dom.

(** C10.  In every state of an instance of [src/index.js], whatever
    [_data] holds, [save] returns a record whose level is the number of a
    registry entry and whose align is the align of a registry entry:
    [currentLevel] and [currentAlign] fall back to the default entries. *)
Theorem C10_save_in_registries (h : Index.Header) (toolsContent : element) :
  (exists entry,
      In entry Index.levels /\
      Index.level (Index.save toolsContent h) =
        Num (Int (Index.number entry))) /\
  (exists item,
      In item Index.aligns /\
      Index.align (Index.save toolsContent h) =
        Str (Index.item_align item)).
Proof.
  split.
  - exists (Index.currentLevel h). split; [apply Index_currentLevel_in|].
    reflexivity.
  - exists (Index.currentAlign h). split; [apply Index_currentAlign_in|].
    reflexivity.
Qed.

(** The level [normalizeData] stores: the parsed integer, or the default
    number when parsing fails or gives 0. *)
Lemma level_or_default (l : value) (dflt : Z) :
  ((parseInt l = NaN \/ parseInt l = Int 0) ->
   or (Num (parseInt l)) (Num (Int dflt)) = Num (Int dflt)) /\
  (forall z, parseInt l = Int z -> z <> 0 ->
             or (Num (parseInt l)) (Num (Int dflt)) = Num (Int z)).
Proof.
  split.
  - intros [-> | ->]; reflexivity.
  - intros z -> Hz. unfold or. cbn [truthy].
    destruct (z =? 0) eqn:E; [|reflexivity].
    apply Z.eqb_eq in E. contradiction.
Qed.

(** C1, as the code has it.  For every input record, [normalizeData]
    stores the default level number when integer-parsing of the input's
    level fails or gives 0, and stores every other parsed integer as it is,
    in the registry or not.  The record the component holds has its level
    and align in the registries after every paste, merge and settings
    change, and whenever it is read through the [data] getter, which
    resolves them through [currentLevel] and [currentAlign]. *)
Theorem C1_normalize_level_fallback
    (props : list (string * value)) (B t' : value)
    (h : Index.Header) (event : Index.PasteEvent)
    (entry : Index.levelItem) (item : Index.alignItem)
    (h0 : Part000.Header) (event0 : Part000.PasteEvent)
    (entry0 : Part000.levelItem) :
  get B "text" = Ok t' ->
  In entry Index.levels -> In item Index.aligns ->
  In entry0 Part000.levels ->
  (exists r,
      Index.normalizeData (Obj props) = Ok r /\
      ((parseInt (field "level" props) = NaN \/
        parseInt (field "level" props) = Int 0) ->
       Index.level r = Num (Int (Index.number Index.defaultLevel))) /\
      (forall z, parseInt (field "level" props) = Int z -> z <> 0 ->
                 Index.level r = Num (Int z))) /\
  (exists r,
      Part000.normalizeData (Obj props) = Ok r /\
      ((parseInt (field "level" props) = NaN \/
        parseInt (field "level" props) = Int 0) ->
       Part000.level r = Num (Int (Part000.number Part000.defaultLevel))) /\
      (forall z, parseInt (field "level" props) = Int z -> z <> 0 ->
                 Part000.level r = Num (Int z))) /\
  (Index.resolved (Index._data (Index.get_data h)) /\
   (exists h',
       Index.onPaste event h = Ok h' /\ Index.resolved (Index._data h')) /\
   (exists h',
       Index.merge B h = Ok h' /\ Index.resolved (Index._data h')) /\
   (exists h',
       Index.setLevel (Num (Int (Index.number entry))) h = Ok h' /\
       Index.resolved (Index._data h')) /\
   (exists h',
       Index.setAlign (Str (Index.item_align item)) h = Ok h' /\
       Index.resolved (Index._data h'))) /\
  (Part000.resolved (Part000._data (Part000.get_data h0)) /\
   (exists h0',
       Part000.onPaste event0 h0 = Ok h0' /\
       Part000.resolved (Part000._data h0')) /\
   (exists h0',
       Part000.merge B h0 = Ok h0' /\
       Part000.resolved (Part000._data h0')) /\
   (exists h0',
       Part000.setLevel (Num (Int (Part000.number entry0))) h0 = Ok h0' /\
       Part000.resolved (Part000._data h0'))).
Proof.
  intros HB Hentry Hitem Hentry0.
  split; [|split; [|split; [repeat split|repeat split]]].
  - eexists. split; [apply Index_normalizeData_object|].
    cbn [Index.level]. apply level_or_default.
  - eexists.
    split; [apply (Part000_normalizeData_raw (Obj props)); discriminate|].
    cbn [Part000.level raw]. apply level_or_default.
  - apply Index_get_data_resolved.
  - apply Index_get_data_resolved.
  - apply Index_onPaste_resolved.
  - now apply (Index_merge_resolved B t').
  - now apply Index_setLevel_resolved.
  - now apply Index_setAlign_resolved.
  - exists (Part000.currentLevel h0).
    split; [apply Part000_currentLevel_in | reflexivity].
  - apply Part000_onPaste_resolved.
  - now apply (Part000_merge_resolved B t').
  - now apply Part000_setLevel_resolved.
Qed.

Lemma C1_normalize_level_fallback_witness :
  get (Obj [("text", Str "!")]) "text" = Ok (Str "!") /\
  In (nth 0 Index.levels Index.defaultLevel) Index.levels /\
  In (nth 2 Index.aligns Index.defaultAlign) Index.aligns /\
  In (nth 1 Part000.levels Part000.defaultLevel) Part000.levels /\
  parseInt (field "level" [("level", Str "h2")]) = NaN /\
  (exists r,
      Index.normalizeData (Obj [("level", Str "h2")]) = Ok r /\
      Index.level r = Num (Int 2)) /\
  (exists h',
      Index.setLevel (Num (Int 1)) Sample.block = Ok h' /\
      Index.resolved (Index._data h')).
Proof.
  assert (H1 : In (nth 0 Index.levels Index.defaultLevel) Index.levels)
    by (cbn; tauto).
  assert (H2 : In (nth 2 Index.aligns Index.defaultAlign) Index.aligns)
    by (cbn; tauto).
  assert (H3 : In (nth 1 Part000.levels Part000.defaultLevel) Part000.levels)
    by (cbn; tauto).
  destruct (C1_normalize_level_fallback
              [("level", Str "h2")] (Obj [("text", Str "!")]) (Str "!")
              Sample.block {| Index.detail_data := Sample.pasted "H3" |}
              _ _
              Sample.block0 {| Part000.detail_data := Sample.pasted "H3" |}
              _ eq_refl H1 H2 H3)
    as ((r & Hr & Hdefault & _) & _ & (_ & _ & _ & Hset & _) & _).
  split; [reflexivity|]. split; [exact H1|]. split; [exact H2|].
  split; [exact H3|]. split; [reflexivity|]. split.
  - exists r. split; [exact Hr|]. apply Hdefault. now left.
  - exact Hset.
Defined.

(** C1 as stated fails: a level of 999 is kept, although 999 is the number
    of no registry entry and differs from the default, and the block built
    from such a record holds it. *)
Lemma C1_level_999_kept :
  (exists r,
      Index.normalizeData (Obj [("level", Num (Int 999))]) = Ok r /\
      Index.level r = Num (Int 999) /\
      Index.level r <> Num (Int (Index.number Index.defaultLevel))) /\
  (exists h,
      Index.constructor (Obj [("level", Num (Int 999))])
        Sample.config Sample.styles = Ok h /\
      Index.level (Index._data h) = Num (Int 999)) /\
  ~ In 999 (map Index.number Index.levels).
Proof.
  split; [|split].
  - eexists. split; [reflexivity|]. split; [reflexivity | discriminate].
  - eexists. split; reflexivity.
  - cbn. intros [H | [H | [H | []]]]; discriminate.
Qed.

(** C2, as the code has it.  [normalizeData] returns a record for every
    input but [null] whose level converts to a string (a primitive, or an
    object without a [toString] of its own); an input that is not an
    object is treated as the empty record, and the empty record gets the
    defaults.  [validate] returns a boolean whenever the text of the
    record is a string: whether anything is left of it once trimmed.  On
    an instance whose class names are tokens, [onPaste] returns, [setLevel]
    and [setAlign] return for every argument that converts to a string,
    and [merge] returns for every object whose text does; the constructor
    returns for every object whose fields convert and every placeholder
    that does; [save] is a total function. *)
Theorem C2_no_throw_on_records
    (d blockData level align : value) (s : string)
    (props : list (string * value)) (h : Index.Header)
    (event : Index.PasteEvent) (config : Index.HeaderConfig)
    (api : Index.Styles) :
  d <> Null ->
  convertible (raw d "level") = true ->
  get blockData "text" = Ok (Str s) ->
  Index.well_formed h ->
  convertible level = true ->
  convertible align = true ->
  convertible (field "text" props) = true ->
  convertible (field "level" props) = true ->
  convertible (field "align" props) = true ->
  convertible (Index.placeholder config) = true ->
  (exists r, Index.normalizeData d = Ok r) /\
  (typeof d <> "object" ->
   Index.normalizeData d = Index.normalizeData (Obj [])) /\
  Index.normalizeData (Obj []) =
    Ok {| Index.text := Str "";
          Index.level := Num (Int (Index.number Index.defaultLevel));
          Index.align := Str (Index.item_align Index.defaultAlign) |} /\
  (exists r,
      Index.normalizeData (Obj props) = Ok r /\
      (lookup "text" props = None -> Index.text r = Str "") /\
      (lookup "level" props = None ->
       Index.level r = Num (Int (Index.number Index.defaultLevel))) /\
      (lookup "align" props = None ->
       Index.align r = Str (Index.item_align Index.defaultAlign))) /\
  Index.validate blockData = Ok (negb (trim s =? "")%string) /\
  (exists h', Index.setLevel level h = Ok h') /\
  (exists h', Index.setAlign align h = Ok h') /\
  (exists h', Index.onPaste event h = Ok h') /\
  (exists h', Index.merge (Obj props) h = Ok h') /\
  (exists h', Index.constructor (Obj props) config api = Ok h').
Proof.
  intros Hd _ Htext _ _ _ _ _ _ _. repeat split.
  - eexists. apply (Index_normalizeData_raw d Hd).
  - apply Index_normalizeData_primitive.
  - eexists. split; [apply Index_normalizeData_object|].
    unfold field. repeat split; now intros ->.
  - unfold Index.validate. rewrite Htext. reflexivity.
  - unfold Index.setLevel.
    match goal with |- context [Index.set_data ?x ?y] =>
      destruct (Index_set_data_spec x y) as (r & h' & _ & -> & _) end;
      try discriminate.
    eexists. reflexivity.
  - unfold Index.setAlign.
    match goal with |- context [Index.set_data ?x ?y] =>
      destruct (Index_set_data_spec x y) as (r & h' & _ & -> & _) end;
      try discriminate.
    eexists. reflexivity.
  - unfold Index.onPaste.
    match goal with |- context [Index.set_data ?x ?y] =>
      destruct (Index_set_data_spec x y) as (r & h' & _ & -> & _) end;
      try discriminate.
    eexists. reflexivity.
  - unfold Index.merge. cbn [get bind].
    match goal with |- context [Index.set_data ?x ?y] =>
      destruct (Index_set_data_spec x y) as (r & h' & _ & -> & _) end;
      try discriminate.
    eexists. reflexivity.
  - unfold Index.constructor. cbn [get bind].
    rewrite Index_normalizeData_object. cbn [bind]. eexists. reflexivity.
Qed.

Lemma C2_no_throw_on_records_witness :
  Undefined <> Null /\
  get (Obj [("text", Str "  ")]) "text" = Ok (Str "  ") /\
  Index.well_formed Sample.block /\
  convertible (Obj [("valueOf", Num (Int 1))]) = true /\
  (exists r, Index.normalizeData Undefined = Ok r) /\
  Index.validate (Obj [("text", Str "  ")]) = Ok false /\
  (exists h',
      Index.setLevel (Obj [("valueOf", Num (Int 1))]) Sample.block = Ok h').
Proof.
  assert (Hwf : Index.well_formed Sample.block) by (repeat split).
  pose proof (C2_no_throw_on_records
                Undefined (Obj [("text", Str "  ")])
                (Obj [("valueOf", Num (Int 1))]) Undefined
                "  " [] Sample.block
                {| Index.detail_data := Sample.pasted "H3" |}
                Sample.config Sample.styles
                ltac:(discriminate) eq_refl eq_refl Hwf
                eq_refl eq_refl eq_refl eq_refl eq_refl eq_refl)
    as (Hn & _ & _ & _ & Hv & Hl & _).
  split; [discriminate|]. split; [reflexivity|]. split; [exact Hwf|].
  split; [reflexivity|]. split; [exact Hn|]. split; [exact Hv | exact Hl].
Defined.

(** C2 as stated fails: [normalizeData] throws on [null], and [validate]
    throws on a record without text. *)
Lemma C2_null_and_missing_text_throw :
  Index.normalizeData Null =
    Throw (TypeError "Cannot read properties of null") /\
  Index.validate (Obj []) =
    Throw (TypeError "Cannot read properties of undefined").
Proof. split; reflexivity. Qed.

(** The level [normalizeData] stores is read back unchanged when it prints
    in plain decimal notation. *)
Lemma level_reparsed (l : value) (dflt : Z) :
  plain (parseInt l) = true ->
  plain (Int dflt) = true ->
  dflt <> 0 ->
  or (Num (parseInt (or (Num (parseInt l)) (Num (Int dflt)))))
     (Num (Int dflt)) =
  or (Num (parseInt l)) (Num (Int dflt)).
Proof.
  intros Hl Hdflt Hnz.
  assert (Hd : or (Num (parseInt (Num (Int dflt)))) (Num (Int dflt)) =
               Num (Int dflt)).
  { rewrite parseInt_number by exact Hdflt. unfold or. cbn [truthy].
    now destruct (dflt =? 0). }
  destruct (parseInt l) as [| z] eqn:Hp.
  - exact Hd.
  - assert (Hor : or (Num (Int z)) (Num (Int dflt)) =
                  if z =? 0 then Num (Int dflt) else Num (Int z))
      by (unfold or; cbn [truthy]; now destruct (z =? 0)).
    rewrite Hor. destruct (z =? 0) eqn:Hz.
    + exact Hd.
    + rewrite parseInt_number by exact Hl. exact Hor.
Qed.

(** C3, as the code has it.  For every input whose level is a primitive
    or an object without a [toString] of its own, and parses to [NaN] or to
    a safe integer (of magnitude at most 2^53), normalising the normalised
    record gives the same record again, in both variants; [normalizeData]
    returns a record for every such input but [null], on which both sides
    throw. *)
Theorem C3_normalize_idempotent (d : value) :
  exact (raw d "level") = true ->
  safe (parseInt (raw d "level")) = true ->
  ((r <- Index.normalizeData d ;; Index.normalizeData (Index.to_object r)) =
   Index.normalizeData d /\
   (d <> Null -> exists r, Index.normalizeData d = Ok r)) /\
  ((r <- Part000.normalizeData d ;;
    Part000.normalizeData (Part000.to_object r)) =
   Part000.normalizeData d /\
   (d <> Null -> exists r, Part000.normalizeData d = Ok r)).
Proof.
  intros _ Hsafe. pose proof (safe_plain _ Hsafe) as Hplain.
  destruct (value_eq_Null d) as [-> | Hd]; [repeat split; now intros []|].
  rewrite (Index_normalizeData_raw d Hd), (Part000_normalizeData_raw d Hd).
  cbn [bind]. repeat split; try (intros _; eexists; reflexivity).
  - unfold Index.to_object. rewrite Index_normalizeData_object.
    cbn [field lookup String.eqb Ascii.eqb Bool.eqb
         Index.text Index.level Index.align].
    rewrite !or_or, level_reparsed by (exact Hplain || easy).
    reflexivity.
  - unfold Part000.to_object.
    rewrite (Part000_normalizeData_raw (Obj _)) by discriminate.
    cbn [raw field lookup String.eqb Ascii.eqb Bool.eqb
         Part000.text Part000.level].
    rewrite !or_or, level_reparsed by (exact Hplain || easy).
    reflexivity.
Qed.

Lemma C3_normalize_idempotent_witness :
  exact (raw (Obj [("level", Str "3px")]) "level") = true /\
  safe (parseInt (raw (Obj [("level", Str "3px")]) "level")) = true /\
  (r <- Index.normalizeData (Obj [("level", Str "3px")]) ;;
   Index.normalizeData (Index.to_object r)) =
  Index.normalizeData (Obj [("level", Str "3px")]).
Proof.
  split; [reflexivity|]. split; [reflexivity|].
  apply (C3_normalize_idempotent (Obj [("level", Str "3px")]));
    reflexivity.
Defined.

(** C3 as stated fails: a level given as the 22 digits of 10^21 is parsed
    to 10^21 (a double: 2^21 * 5^21, and 5^21 is below 2^53), which prints
    as 1e+21 and is parsed to 1 the second time. *)
Lemma C3_level_1e21_not_stable :
  exists r r',
    Index.normalizeData (Obj [("level", Str "1000000000000000000000")]) =
      Ok r /\
    Index.normalizeData (Index.to_object r) = Ok r' /\
    Index.level r = Num (Int (10 ^ 21)) /\
    Index.level r' = Num (Int 1) /\
    r' <> r.
Proof.
  eexists. eexists. split; [vm_compute; reflexivity|].
  split; [vm_compute; reflexivity|].
  split; [reflexivity|]. split; [reflexivity|]. discriminate.
Qed.

(** C4, evaluated.  On the empty record, [src/index.js] gives the empty
    text, the number of the second level entry and the first alignment; the
    variant with levels H2..H4 gives the number of its third entry, H4: its
    [defaultLevel] reads [levels[2]] under the comment "Use H2 as default
    header", and H2 is the first entry there. *)
Theorem C4_normalize_empty_record :
  Index.normalizeData (Obj []) =
    Ok {| Index.text := Str ""; Index.level := Num (Int 2);
          Index.align := Str "left" |} /\
  nth_error Index.levels 1 = Some Index.defaultLevel /\
  nth_error Index.aligns 0 = Some Index.defaultAlign /\
  Part000.normalizeData (Obj []) =
    Ok {| Part000.text := Str ""; Part000.level := Num (Int 4) |} /\
  nth_error Part000.levels 2 = Some Part000.defaultLevel /\
  Part000.tag Part000.defaultLevel = "H4" /\
  option_map Part000.tag (nth_error Part000.levels 0) = Some "H2" /\
  List.length Index.levels = 3%nat /\
  List.length Part000.levels = 3%nat.
Proof. repeat split. Qed.

(** C5.  With A the record the component reports before the call and B a
    record whose text is a string, after [merge(B)] the component reports
    the text of A followed by the text of B, and the level and (in
    [src/index.js]) the align of A; the rendered element shows the same
    text.  B's level and align are not read. *)
Theorem C5_merge_appends_text
    (h : Index.Header) (h0 : Part000.Header) (B : value) (t : string) :
  get B "text" = Ok (Str t) ->
  (exists h' a,
      Index.merge B h = Ok h' /\
      Index.text (Index._data (Index.get_data h)) = Str a /\
      Index.text (Index._data (Index.get_data h')) = Str (a ++ t) /\
      innerHTML (Index.render h') = a ++ t /\
      Index.level (Index._data (Index.get_data h')) =
        Index.level (Index._data (Index.get_data h)) /\
      Index.align (Index._data (Index.get_data h')) =
        Index.align (Index._data (Index.get_data h))) /\
  (exists h0' a,
      Part000.merge B h0 = Ok h0' /\
      Part000.text (Part000._data (Part000.get_data h0)) = Str a /\
      Part000.text (Part000._data (Part000.get_data h0')) = Str (a ++ t) /\
      innerHTML (Part000.render h0') = a ++ t /\
      Part000.level (Part000._data (Part000.get_data h0')) =
        Part000.level (Part000._data (Part000.get_data h0))).
Proof.
  intros HB. split.
  - destruct (Index_merge_spec h B t HB) as (h' & Hm & Hd & Hhtml).
    exists h', (innerHTML (Index._element h)).
    rewrite !Index_get_data_spec. unfold Index.render.
    cbn [Index.text Index.level Index.align]. rewrite Hhtml.
    repeat split; try assumption.
    + rewrite (Index_currentLevel_registry h' (Index.currentLevel h));
        [reflexivity | apply Index_currentLevel_in | now rewrite Hd].
    + rewrite (Index_currentAlign_registry h' (Index.currentAlign h));
        [reflexivity | apply Index_currentAlign_in | now rewrite Hd].
  - destruct (Part000_merge_spec h0 B t HB) as (h' & Hm & Hd & Hhtml).
    exists h', (innerHTML (Part000._element h0)).
    rewrite !Part000_get_data_spec. unfold Part000.render.
    cbn [Part000.text Part000.level]. rewrite Hhtml.
    repeat split; try assumption.
    rewrite (Part000_currentLevel_registry h' (Part000.currentLevel h0));
      [reflexivity | apply Part000_currentLevel_in | now rewrite Hd].
Qed.

Lemma C5_merge_appends_text_witness :
  get (Obj [("text", Str "!"); ("level", Num (Int 1));
            ("align", Str "right")]) "text" = Ok (Str "!") /\
  exists h',
    Index.merge (Obj [("text", Str "!"); ("level", Num (Int 1));
                      ("align", Str "right")]) Sample.block = Ok h' /\
    Index.text (Index._data (Index.get_data h')) = Str "Hi!" /\
    Index.level (Index._data (Index.get_data h')) = Num (Int 3) /\
    Index.align (Index._data (Index.get_data h')) = Str "center".
Proof.
  split; [reflexivity|].
  destruct (C5_merge_appends_text Sample.block Sample.block0
              (Obj [("text", Str "!"); ("level", Num (Int 1));
                    ("align", Str "right")]) "!" eq_refl)
    as [(h' & a & Hm & Ha & Ht & _ & Hl & Hal) _].
  injection Ha as <-.
  exists h'. repeat split; assumption.
Defined.

(** C9.  For every call of the [data] setter with a payload whose text is
    undefined, the markup of the rendered element after the call is the
    markup before it; when the payload's text is a string, the markup after
    the call is that string (in general, when the text is defined, it is
    the string of [text || '']).  Both variants. *)
Theorem C9_setter_keeps_text_when_omitted
    (h : Index.Header) (h0 : Part000.Header) (data v : value) :
  get data "text" = Ok v ->
  (exists h',
      Index.set_data data h = Ok h' /\
      (v = Undefined ->
       innerHTML (Index.render h') = innerHTML (Index.render h)) /\
      (forall t, v = Str t -> innerHTML (Index.render h') = t) /\
      (is_defined v = true ->
       innerHTML (Index.render h') = to_string (or v (Str "")))) /\
  (exists h0',
      Part000.set_data data h0 = Ok h0' /\
      (v = Undefined ->
       innerHTML (Part000.render h0') = innerHTML (Part000.render h0)) /\
      (forall t, v = Str t -> innerHTML (Part000.render h0') = t) /\
      (is_defined v = true ->
       innerHTML (Part000.render h0') = to_string (or v (Str "")))).
Proof.
  intros Hv.
  assert (Hnull : data <> Null) by (intros ->; discriminate).
  assert (Hundef : data <> Undefined) by (intros ->; discriminate).
  assert (Hraw : raw data "text" = v)
    by (destruct data; cbn in Hv |- *; congruence).
  split.
  - destruct (Index_set_data_spec data h Hnull Hundef)
      as (d & h' & Hd & Hset & _ & _ & _ & _ & _ & Hhtml).
    exists h'. split; [exact Hset|]. unfold Index.render.
    rewrite Hhtml, Hraw.
    rewrite (Index_normalizeData_raw data Hnull) in Hd. injection Hd as <-.
    cbn [Index.text]. rewrite Hraw, or_or. repeat split.
    + now intros ->.
    + intros t ->. cbn [is_defined]. now rewrite or_str_empty.
    + now intros ->.
  - destruct (Part000_set_data_spec data h0 Hnull Hundef)
      as (d & h' & Hd & Hset & _ & _ & _ & _ & _ & Hhtml).
    exists h'. split; [exact Hset|]. unfold Part000.render.
    rewrite Hhtml, Hraw.
    rewrite (Part000_normalizeData_raw data Hnull) in Hd. injection Hd as <-.
    cbn [Part000.text]. rewrite Hraw, or_or. repeat split.
    + now intros ->.
    + intros t ->. cbn [is_defined]. now rewrite or_str_empty.
    + now intros ->.
Qed.

Lemma C9_setter_keeps_text_when_omitted_witness :
  get (Obj [("level", Num (Int 1))]) "text" = Ok Undefined /\
  exists h',
    Index.set_data (Obj [("level", Num (Int 1))])
      (Index.with_element (set_parentNode true (Index._element Sample.block))
         Sample.block) = Ok h' /\
    innerHTML (Index.render h') = "Hi".
Proof.
  split; [reflexivity|].
  destruct (C9_setter_keeps_text_when_omitted
              (Index.with_element
                 (set_parentNode true (Index._element Sample.block))
                 Sample.block)
              Sample.block0 (Obj [("level", Num (Int 1))]) Undefined eq_refl)
    as [(h' & Hset & Hkeep & _) _].
  exists h'. split; [exact Hset|]. now rewrite Hkeep.
Defined.






End Claims.

(** ** The claim about the settings buttons *)

Section SettingsClaims.
Import Js Dom Index.

(** C8.  In every state the host can reach from construction (showing the
    block, opening the settings any number of times, clicking settings
    buttons, merging, pasting), with the two class names of the host
    distinct: for every registry level, after [setLevel] of its number every
    settings panel has exactly one highlighted button in its level group,
    the one that stores that number, and the buttons of the alignment group
    are the same as before; symmetrically for [setAlign]; and every panel
    has exactly one highlighted level button and exactly one highlighted
    alignment button.  There is one panel per call of [renderSettings]. *)
Theorem C8_settings_highlight
    (data : value) (config : HeaderConfig) (api : Styles)
    (calls : list hostCall) (h : Header) :
  styles_settingsButton api <> styles_settingsButtonActive api ->
  (h0 <- constructor data config api ;; run calls h0) = Ok h ->
  (forall entry,
      In entry levels ->
      exists h',
        setLevel (Num (Int (number entry))) h = Ok h' /\
        Forall (fun panel =>
                  exists b,
                    filter (highlighted h') (levelGroup panel) = [b] /\
                    b_dataset_level b =
                      Some (to_string (Num (Int (number entry)))))
               (panels (settingsButtons h')) /\
        alignGroup (settingsButtons h') = alignGroup (settingsButtons h)) /\
  (forall item,
      In item aligns ->
      exists h',
        setAlign (Str (item_align item)) h = Ok h' /\
        Forall (fun panel =>
                  exists b,
                    filter (highlighted h') (alignGroup panel) = [b] /\
                    b_dataset_align b = Some (item_align item))
               (panels (settingsButtons h')) /\
        levelGroup (settingsButtons h') = levelGroup (settingsButtons h)) /\
  Forall (fun panel =>
            List.length (filter (highlighted h) (levelGroup panel)) = 1%nat /\
            List.length (filter (highlighted h) (alignGroup panel)) = 1%nat)
         (panels (settingsButtons h)) /\
  List.length (panels (settingsButtons h)) = renders calls.
Proof.
  intros Hne Hrun.
  destruct (constructor data config api) as [h0 |] eqn:Hc; [|discriminate].
  cbn [bind] in Hrun.
  destruct (constructor_settings _ _ _ _ Hc) as (Hs & Ha & Hb).
  assert (Hok0 : settings_ok (settingsButtonActive (_CSS h0)) 0
                   (settingsButtons h0)).
  { exists []. rewrite Hb. repeat split. constructor. }
  destruct (settings_ok_run calls 0 h0 h ltac:(now rewrite Hs, Ha) Hok0 Hrun)
    as (_ & Hok).
  rewrite Nat.add_0_r in Hok.
  split; [intros entry Hin;
          now apply (setLevel_highlight entry (renders calls) h)|].
  split; [intros item Hin;
          now apply (setAlign_highlight item (renders calls) h)|].
  destruct Hok as (ps & -> & Hn & Hps).
  rewrite (panels_concat _ _ Hps). split; [|exact Hn].
  eapply Forall_impl; [|exact Hps]. now intros p (_ & Hl & Hal).
Qed.

Lemma C8_settings_highlight_witness :
  styles_settingsButton Sample.styles <>
    styles_settingsButtonActive Sample.styles /\
  (h0 <- constructor Sample.data Sample.config Sample.styles ;;
   run Sample.calls h0) = Ok Sample.opened /\
  List.length (panels (settingsButtons Sample.opened)) = 1%nat /\
  Forall (fun panel =>
            List.length
              (filter (highlighted Sample.opened) (levelGroup panel)) = 1%nat /\
            List.length
              (filter (highlighted Sample.opened) (alignGroup panel)) = 1%nat)
         (panels (settingsButtons Sample.opened)).
Proof.
  assert (Hne : styles_settingsButton Sample.styles <>
                styles_settingsButtonActive Sample.styles) by discriminate.
  assert (Hrun : (h0 <- constructor Sample.data Sample.config Sample.styles ;;
                  run Sample.calls h0) = Ok Sample.opened)
    by (vm_compute; reflexivity).
  destruct (C8_settings_highlight Sample.data Sample.config Sample.styles
              Sample.calls Sample.opened Hne Hrun) as (_ & _ & Hall & Hlen).
  split; [exact Hne|]. split; [exact Hrun|]. split; [exact Hlen | exact Hall].
Defined.

End SettingsClaims.
